(** * aiomcrcon.client: a shallow embedding of the RCON client

    The development follows [src/aiomcrcon/client.py].  The Python
    standard library pieces the client calls ([struct], the [utf8]
    codec, [random], [re], and asyncio streams) are modelled in their
    own modules, from their documented behaviour; the client itself
    ([MessageType], [Client]) is translated line by line on top of
    them. *)

From Stdlib Require Import ZArith List Lia String Strings.Byte Bool.
From stdpp Require Import base list numbers.
Import ListNotations.

Local Open Scope Z_scope.

(** ** Bytes *)

(** A Python [bytes] object. *)
Definition bytes := list byte.

Definition byte_to_Z (b : byte) : Z := Z.of_N (Byte.to_N b).

(** The byte holding [z mod 256]. *)
Definition byte_of_Z (z : Z) : byte :=
  match Byte.of_N (Z.to_N (z mod 256)) with
  | Some b => b
  | None => x00
  end.

#[global] Instance byte_eq_dec : EqDecision byte := Byte.byte_eq_dec.

(** [b.endswith(suffix)] *)
Definition endswith (b suffix : bytes) : bool :=
  bool_decide (drop (length b - length suffix)%nat b = suffix).

(** Python slicing [l[start:stop]], negative indices counted from the end. *)
Definition slice_index (len i : Z) : nat :=
  Z.to_nat (if i <? 0 then Z.max 0 (len + i) else Z.min i len).

Definition slice {A} (l : list A) (start stop : Z) : list A :=
  let len := Z.of_nat (length l) in
  let s := slice_index len start in
  let e := slice_index len stop in
  take (e - s)%nat (drop s l).

(** ** Exceptions *)

(** The exception classes the client raises or lets through.  The first
    three are declared in [aiomcrcon/errors.py] (star-imported by the
    client); the others are Python built-ins. *)
Inductive exn : Type :=
| RCONConnectionError (msg : string) (error : exn)
| ClientNotConnectedError
| IncorrectPasswordError
| ValueError (msg : string)
| struct_error
| UnicodeEncodeError
| UnicodeDecodeError
| asyncio_TimeoutError
| TimeoutError
| ConnectionRefusedError
| ConnectionResetError
| BrokenPipeError
| OSError
| NameError (name : string)
| AttributeError.

(** A computation that can fail, without state: [struct] and codecs. *)
Definition result (A : Type) : Type := exn + A.

(** ** struct *)

Module struct.

Definition INT_MIN : Z := -2147483648.
Definition INT_MAX : Z := 2147483647.

Definition in_range (v : Z) : bool := (INT_MIN <=? v) && (v <=? INT_MAX).

(** The four little-endian bytes of the two's complement of [v]. *)
Definition le32 (v : Z) : bytes :=
  [ byte_of_Z v; byte_of_Z (v / 256);
    byte_of_Z (v / 65536); byte_of_Z (v / 16777216) ].

(** [struct.pack("<i", v)]: [struct.error] outside the int32 range. *)
Definition pack_i (v : Z) : result bytes :=
  if in_range v then inr (le32 v) else inl struct_error.

(** [struct.pack("<ii", a, b)] *)
Definition pack_ii (a b : Z) : result bytes :=
  if in_range a && in_range b then inr (le32 a ++ le32 b)
  else inl struct_error.

Definition signed32 (u : Z) : Z :=
  if u <? 2147483648 then u else u - 4294967296.

Definition of_le32 (b0 b1 b2 b3 : byte) : Z :=
  signed32 (byte_to_Z b0 + 256 * byte_to_Z b1
            + 65536 * byte_to_Z b2 + 16777216 * byte_to_Z b3).

(** [struct.unpack("<i", b)[0]]: the buffer must hold exactly 4 bytes. *)
Definition unpack_i (b : bytes) : result Z :=
  match b with
  | [b0; b1; b2; b3] => inr (of_le32 b0 b1 b2 b3)
  | _ => inl struct_error
  end.

(** [struct.unpack("<ii", b)]: the buffer must hold exactly 8 bytes. *)
Definition unpack_ii (b : bytes) : result (Z * Z) :=
  match b with
  | [b0; b1; b2; b3; c0; c1; c2; c3] =>
      inr (of_le32 b0 b1 b2 b3, of_le32 c0 c1 c2 c3)
  | _ => inl struct_error
  end.

End struct.

(** ** str and the utf8 codec *)

(** A Python [str]: its code points, each in [0, 0x10FFFF]. *)
Definition str := list Z.

Definition is_code_point (c : Z) : bool := (0 <=? c) && (c <=? 1114111).

Definition is_surrogate (c : Z) : bool := (55296 <=? c) && (c <=? 57343).

(** The code points UTF-8 can carry: every code point but the surrogates. *)
Definition is_scalar (c : Z) : bool := is_code_point c && negb (is_surrogate c).

(** The code points of an ASCII literal. *)
Fixpoint literal (s : string) : str :=
  match s with
  | EmptyString => []
  | String a s' => Z.of_N (Ascii.N_of_ascii a) :: literal s'
  end.

Module utf8.

Definition cont (z : Z) : byte := byte_of_Z (128 + z mod 64).

(** One code point; surrogates are refused ("surrogates not allowed"). *)
Definition encode_char (c : Z) : result bytes :=
  if negb (is_code_point c) then inl UnicodeEncodeError
  else if c <? 128 then inr [byte_of_Z c]
  else if c <? 2048 then inr [byte_of_Z (192 + c / 64); cont c]
  else if is_surrogate c then inl UnicodeEncodeError
  else if c <? 65536 then
    inr [byte_of_Z (224 + c / 4096); cont (c / 64); cont c]
  else
    inr [byte_of_Z (240 + c / 262144); cont (c / 4096); cont (c / 64); cont c].

(** [s.encode("utf8")] *)
Fixpoint encode (s : str) : result bytes :=
  match s with
  | [] => inr []
  | c :: s' =>
      match encode_char c with
      | inl e => inl e
      | inr b =>
          match encode s' with
          | inl e => inl e
          | inr r => inr (b ++ r)
          end
      end
  end.

Definition is_cont (x : Z) : bool := (128 <=? x) && (x <=? 191).

(** The second byte of a three-byte form: no overlong form, no surrogate. *)
Definition second_of_3 (x0 x1 : Z) : bool :=
  if x0 =? 224 then (160 <=? x1) && (x1 <=? 191)
  else if x0 =? 237 then (128 <=? x1) && (x1 <=? 159)
  else is_cont x1.

(** The second byte of a four-byte form: no overlong form, at most U+10FFFF. *)
Definition second_of_4 (x0 x1 : Z) : bool :=
  if x0 =? 240 then (144 <=? x1) && (x1 <=? 191)
  else if x0 =? 244 then (128 <=? x1) && (x1 <=? 143)
  else is_cont x1.

Definition push (c : Z) (r : result str) : result str :=
  match r with
  | inl e => inl e
  | inr s => inr (c :: s)
  end.

(** [b.decode("utf8")], strict: any ill-formed sequence is an error. *)
Fixpoint decode (b : bytes) : result str :=
  match b with
  | [] => inr []
  | b0 :: t0 =>
      let x0 := byte_to_Z b0 in
      if x0 <? 128 then push x0 (decode t0)
      else if (194 <=? x0) && (x0 <=? 223) then
        match t0 with
        | b1 :: t1 =>
            let x1 := byte_to_Z b1 in
            if is_cont x1
            then push ((x0 - 192) * 64 + (x1 - 128)) (decode t1)
            else inl UnicodeDecodeError
        | _ => inl UnicodeDecodeError
        end
      else if (224 <=? x0) && (x0 <=? 239) then
        match t0 with
        | b1 :: b2 :: t2 =>
            let x1 := byte_to_Z b1 in
            let x2 := byte_to_Z b2 in
            if second_of_3 x0 x1 && is_cont x2
            then push ((x0 - 224) * 4096 + (x1 - 128) * 64 + (x2 - 128))
                      (decode t2)
            else inl UnicodeDecodeError
        | _ => inl UnicodeDecodeError
        end
      else if (240 <=? x0) && (x0 <=? 244) then
        match t0 with
        | b1 :: b2 :: b3 :: t3 =>
            let x1 := byte_to_Z b1 in
            let x2 := byte_to_Z b2 in
            let x3 := byte_to_Z b3 in
            if second_of_4 x0 x1 && is_cont x2 && is_cont x3
            then push ((x0 - 240) * 262144 + (x1 - 128) * 4096
                       + (x2 - 128) * 64 + (x3 - 128))
                      (decode t3)
            else inl UnicodeDecodeError
        | _ => inl UnicodeDecodeError
        end
      else inl UnicodeDecodeError
  end.

End utf8.

(** ** re *)

Module re.

(** [re.sub("§.", "", s)]: every leftmost, non-overlapping occurrence of
    U+00A7 followed by one character other than a newline is removed. *)
Fixpoint sub_section_any (s : str) : str :=
  match s with
  | [] => []
  | c :: rest =>
      match rest with
      | d :: rest' =>
          if (c =? 167) && negb (d =? 10)
          then sub_section_any rest'
          else c :: sub_section_any rest
      | [] => [c]
      end
  end.

End re.

(** ** random *)

Module random.

(** [random.randint(a, b)]: the next raw value of the generator, reduced
    into [a..b]; every value of the range can come out. *)
Definition randint (a b : Z) (entropy : list Z) : Z * list Z :=
  match entropy with
  | [] => (a, [])
  | x :: rest => (a + x mod (b - a + 1), rest)
  end.

End random.

(** ** Coroutines: state, exceptions and waiting *)

(** How an awaited coroutine ends: it returns, it raises, or it waits for
    something that never comes. *)
Inductive outcome (A : Type) : Type :=
| Return (a : A)
| Raise (e : exn)
| Blocked.
Arguments Return {A} a.
Arguments Raise {A} e.
Arguments Blocked {A}.

Definition M (S A : Type) : Type := S -> outcome A * S.

Definition ret {S A} (a : A) : M S A := fun s => (Return a, s).

Definition raise {S A} (e : exn) : M S A := fun s => (Raise e, s).

Definition bind {S A B} (m : M S A) (k : A -> M S B) : M S B :=
  fun s =>
    match m s with
    | (Return a, s') => k a s'
    | (Raise e, s') => (Raise e, s')
    | (Blocked, s') => (Blocked, s')
    end.

Definition of_result {S A} (r : result A) : M S A :=
  match r with
  | inl e => raise e
  | inr a => ret a
  end.

(** [try: m except Exception as e: handler(e)] *)
Definition try_except {S A} (m : M S A) (handler : exn -> M S A) : M S A :=
  fun s =>
    match m s with
    | (Raise e, s') => handler e s'
    | r => r
    end.

Declare Scope coroutine_scope.
Delimit Scope coroutine_scope with coroutine.
Notation "'let*' x ':=' m 'in' k" := (bind m (fun x => k))
  (at level 10, x name, m at level 100, k at level 200) : coroutine_scope.
Notation "'let*' ' pat ':=' m 'in' k" :=
  (bind m (fun x => match x with pat => k end))
  (at level 10, pat pattern, m at level 100, k at level 200)
  : coroutine_scope.
Local Open Scope coroutine_scope.

(** ** asyncio streams *)

Module asyncio.

(** What the peer does to a [StreamReader], in order. *)
Inductive event : Type :=
| feed_data (data : bytes)
| feed_eof.

(** What has become of a connection.  The peer can go away at any time;
    the transport learns of it when a send fails, and the stream objects
    when the loop then calls [connection_lost]. *)
Inductive connection : Type :=
| established            (* up: what is written goes out *)
| reset (e : exn)        (* the peer is gone, the next send fails with
                            [e]; the transport has not noticed *)
| dying (e : exn)        (* a send failed with [e]: the transport is
                            closing, [connection_lost(e)] is scheduled *)
| lost (e : exn)         (* [connection_lost(e)] has run: the reader's
                            exception and the close waiter hold [e] *)
| shut.                  (* the client closed the transport *)

(** One TCP stream: the [StreamReader]/[StreamWriter] pair that
    [open_connection] returns shares it. *)
Record Stream : Type := {
  sent : bytes;            (* everything the peer was sent, in order *)
  buffer : bytes;          (* StreamReader._buffer *)
  eof : bool;              (* StreamReader._eof *)
  incoming : list event;   (* what the peer will still deliver *)
  link : connection        (* the state of the connection *)
}.

(** The connection is closed, by either side, or lost: nothing the client
    writes goes out any more. *)
Definition closed (s : Stream) : bool :=
  match link s with
  | established => false
  | _ => true
  end.

(** The same stream with the connection in another state. *)
Definition relinked (l : connection) (s : Stream) : Stream :=
  {| sent := sent s; buffer := buffer s; eof := eof s;
     incoming := incoming s; link := l |}.

(** What happens to one connection attempt. *)
Inductive dial : Type :=
| accept (peer : list event)
| refuse
| unreachable
| os_timeout
| no_answer.

(** The event loop's side of the program: the streams opened so far (a
    reader or writer object is the index of its stream), the fate of the
    connection attempts to come, and the random generator. *)
Record World : Type := {
  streams : list Stream;
  dials : list dial;
  entropy : list Z
}.

Definition set_streams (ss : list Stream) (w : World) : World :=
  {| streams := ss; dials := dials w; entropy := entropy w |}.

Definition fresh (peer : list event) : Stream :=
  {| sent := []; buffer := []; eof := false; incoming := peer;
     link := established |}.

(** [asyncio.open_connection(host, port)] *)
Definition open_connection (host : string) (port : Z)
  : M World (nat * nat) :=
  fun w =>
    match dials w with
    | [] => (Raise ConnectionRefusedError, w)
    | d :: rest =>
        let w' := {| streams := streams w; dials := rest;
                     entropy := entropy w |} in
        match d with
        | accept peer =>
            let h := length (streams w) in
            (Return (h, h), set_streams (streams w ++ [fresh peer]) w')
        | refuse => (Raise ConnectionRefusedError, w')
        | unreachable => (Raise OSError, w')
        | os_timeout => (Raise TimeoutError, w')
        | no_answer => (Blocked, w')
        end
    end.

(** [StreamReader._wait_for_data]: sleeps until the peer feeds a
    non-empty chunk or the end of file.  [None] when neither ever
    happens. *)
Fixpoint wait_for_data (evs : list event)
  : option (bytes * bool * list event) :=
  match evs with
  | [] => None
  | feed_eof :: rest => Some ([], true, rest)
  | feed_data [] :: rest => wait_for_data rest
  | feed_data d :: rest => Some (d, false, rest)
  end.

(** Everything the peer feeds up to the end of file. *)
Fixpoint until_eof (evs : list event) : option (bytes * list event) :=
  match evs with
  | [] => None
  | feed_eof :: rest => Some ([], rest)
  | feed_data d :: rest =>
      match until_eof rest with
      | Some (b, r) => Some (d ++ b, r)
      | None => None
      end
  end.

(** [StreamReader.read(n)] on one stream whose reader holds no exception:
    at most [n] bytes, as soon as any byte is buffered; [b""] at the end
    of file; everything up to the end of file when [n] is negative. *)
Definition read_buffer (n : Z) (s : Stream) : outcome bytes * Stream :=
  if n =? 0 then (Return [], s)
  else if n <? 0 then
    if eof s then
      (Return (buffer s),
       {| sent := sent s; buffer := []; eof := true;
          incoming := incoming s; link := link s |})
    else
      match until_eof (incoming s) with
      | Some (d, rest) =>
          (Return (buffer s ++ d),
           {| sent := sent s; buffer := []; eof := true;
              incoming := rest; link := link s |})
      | None =>
          (Blocked,
           {| sent := sent s; buffer := []; eof := false;
              incoming := []; link := link s |})
      end
  else
    let take_n (buf : bytes) (e : bool) (evs : list event) :=
      (Return (take (Z.to_nat n) buf),
       {| sent := sent s; buffer := drop (Z.to_nat n) buf; eof := e;
          incoming := evs; link := link s |}) in
    match buffer s, eof s with
    | [], false =>
        match wait_for_data (incoming s) with
        | Some (d, e, rest) => take_n d e rest
        | None => (Blocked, s)
        end
    | buf, e => take_n buf e (incoming s)
    end.

(** [StreamReader.read(n)]: it first raises the exception the connection
    was lost with, if any; on a transport the client closed,
    [connection_lost(None)] has fed the end of file. *)
Definition read_stream (n : Z) (s : Stream) : outcome bytes * Stream :=
  match link s with
  | lost e => (Raise e, s)
  | shut =>
      read_buffer n
        {| sent := sent s; buffer := buffer s; eof := true;
           incoming := incoming s; link := shut |}
  | _ => read_buffer n s
  end.

(** Runs [f] on the stream behind the object [h].  Every reader and writer
    of a run is a stream of the world ([reachable_wired] below); [OSError]
    stands for the case that does not occur. *)
Definition on_stream {A} (h : nat) (f : Stream -> outcome A * Stream)
  : M World A :=
  fun w =>
    match streams w !! h with
    | Some s =>
        let '(r, s') := f s in (r, set_streams (<[h := s']> (streams w)) w)
    | None => (Raise OSError, w)
    end.

(** [await reader.read(n)] *)
Definition read (reader : nat) (n : Z) : M World bytes :=
  on_stream reader (read_stream n).

(** [writer.write(data)]: handed to the socket while the connection is
    up.  When the peer is gone the send fails, which closes the transport
    and schedules [connection_lost]; on a transport that is closing or
    lost the data is dropped.  The call itself never raises. *)
Definition write (writer : nat) (data : bytes) : M World unit :=
  on_stream writer (fun s =>
    (Return tt,
     match link s with
     | established =>
         {| sent := sent s ++ data; buffer := buffer s; eof := eof s;
            incoming := incoming s; link := established |}
     | reset e => relinked (dying e) s
     | _ => s
     end)).

(** [await writer.drain()]: raises the reader's exception if it holds
    one; on a closing transport it yields to the loop, which runs the
    scheduled [connection_lost], and then raises [ConnectionResetError];
    returns at once otherwise, the client's packets being far below the
    high-water mark. *)
Definition drain (writer : nat) : M World unit :=
  on_stream writer (fun s =>
    match link s with
    | lost e => (Raise e, s)
    | dying e => (Raise ConnectionResetError, relinked (lost e) s)
    | shut => (Raise ConnectionResetError, s)
    | established | reset _ => (Return tt, s)
    end).

(** [writer.close()]: closes the transport unless it is closing
    already. *)
Definition close (writer : nat) : M World unit :=
  on_stream writer (fun s =>
    (Return tt,
     match link s with
     | established | reset _ => relinked shut s
     | _ => s
     end)).

(** [await writer.wait_closed()]: waits for [connection_lost] and raises
    the exception the connection was lost with, if any.  On a transport
    that nobody closes it waits for ever. *)
Definition wait_closed (writer : nat) : M World unit :=
  on_stream writer (fun s =>
    match link s with
    | lost e => (Raise e, s)
    | dying e => (Raise e, relinked (lost e) s)
    | shut => (Return tt, s)
    | established | reset _ => (Blocked, s)
    end).

(** [await asyncio.wait_for(aw, timeout)] for a positive [timeout], or
    [None] for no limit: an awaitable that would wait forever is
    cancelled where it waits and [asyncio.TimeoutError] is raised. *)
Definition wait_for {S A} (aw : M S A) (timeout : option Qp) : M S A :=
  fun s =>
    match aw s, timeout with
    | (Blocked, s'), Some _ => (Raise asyncio_TimeoutError, s')
    | r, _ => r
    end.

End asyncio.

(** ** aiomcrcon.client *)

Module MessageType.
Definition LOGIN : Z := 3.
Definition COMMAND : Z := 2.
Definition RESPONSE : Z := 0.
Definition INVALID_AUTH : Z := -1.
End MessageType.

(** The attributes of a [Client] object. *)
Record Client : Type := {
  host : string;
  port : Z;
  password : str;
  _reader : option nat;
  _writer : option nat;
  _ready : bool
}.

(** [Client.__init__] *)
Definition __init__ (host : string) (port : Z) (password : str) : Client :=
  {| host := host; port := port; password := password;
     _reader := None; _writer := None; _ready := false |}.

(** A running program: one client object and the event loop's world. *)
Record State : Type := {
  self : Client;
  world : asyncio.World
}.

(** An asyncio call, made from a method of the client. *)
Definition lift {A} (m : M asyncio.World A) : M State A :=
  fun s =>
    let '(r, w) := m (world s) in (r, {| self := self s; world := w |}).

(** [self.<attribute>] *)
Definition getattr {A} (field : Client -> A) : M State A :=
  fun s => (Return (field (self s)), s).

(** A method call on [self.<attribute>], which fails on [None]. *)
Definition object {A} (field : Client -> option A) : M State A :=
  fun s =>
    match field (self s) with
    | Some o => (Return o, s)
    | None => (Raise AttributeError, s)
    end.

Definition update (f : Client -> Client) : M State unit :=
  fun s => (Return tt, {| self := f (self s); world := world s |}).

(** [random.randint(a, b)] on the world's generator. *)
Definition randint (a b : Z) : M State Z :=
  lift (fun w =>
    let '(x, rest) := random.randint a b (asyncio.entropy w) in
    (Return x, {| asyncio.streams := asyncio.streams w;
                  asyncio.dials := asyncio.dials w;
                  asyncio.entropy := rest |})).

(** [Client._send_msg]: sends data to the server, and returns the response. *)
Definition _send_msg (type_ : Z) (msg : str) : M State (str * Z) :=
  (* randomly generate request id *)
  let* req_id := randint 0 2147483647 in
  (* pack request id, packet type, and the actual message *)
  let* header := of_result (struct.pack_ii req_id type_) in
  let* body := of_result (utf8.encode msg) in
  let packet_data := header ++ body ++ [x00; x00] in
  (* pack length of packet + rest of packet data *)
  let* prefix := of_result (struct.pack_i (Z.of_nat (length packet_data))) in
  let packet := prefix ++ packet_data in
  (* send the data to the server *)
  let* writer := object _writer in
  let* _ := lift (asyncio.write writer packet) in
  let* _ := lift (asyncio.drain writer) in
  (* read + unpack length of incoming packet *)
  let* reader := object _reader in
  let* raw_len := lift (asyncio.read reader 4) in
  let* in_len := of_result (struct.unpack_i raw_len) in
  (* read rest of packet data *)
  let* in_data := lift (asyncio.read reader in_len) in
  if negb (endswith in_data [x00; x00])
  then raise (ValueError "Invalid data received from server.")
  else
    (* decode the incoming request id and packet type *)
    let* '(in_type, in_req_id) :=
      of_result (struct.unpack_ii (slice in_data 0 8)) in
    if in_type =? MessageType.INVALID_AUTH
    then raise IncorrectPasswordError
    else
      (* decode the received message *)
      let* in_msg :=
        of_result (utf8.decode (slice in_data 8 (-2))) in
      ret (in_msg, in_type).

(** [Client.connect]: sets up the connection between the client and
    server. *)
Definition connect (timeout : option Qp) : M State unit :=
  let* ready := getattr _ready in
  if ready then ret tt
  else
    let* self_host := getattr host in
    let* self_port := getattr port in
    let* '(reader, writer) :=
      try_except
        (asyncio.wait_for
           (lift (asyncio.open_connection self_host self_port)) timeout)
        (fun e =>
           match e with
           | asyncio_TimeoutError | TimeoutError =>
               raise (RCONConnectionError
                 "A timeout occurred whilst attempting to connect to the server." e)
           | ConnectionRefusedError =>
               raise (RCONConnectionError
                 "The remote server refused the connection." e)
           | _ =>
               raise (RCONConnectionError
                 "The connection failed for an unknown reason." e)
           end) in
    let* _ := update (fun c =>
      {| host := c.(host); port := c.(port); password := c.(password);
         _reader := Some reader; _writer := Some writer;
         _ready := c.(_ready) |}) in
    let* self_password := getattr password in
    let* _ := _send_msg MessageType.LOGIN self_password in
    update (fun c =>
      {| host := c.(host); port := c.(port); password := c.(password);
         _reader := c.(_reader); _writer := c.(_writer); _ready := true |}).

(** The values a caller may pass for [strip_colors]. *)
Inductive object_ : Type :=
| None_
| bool_ (b : bool)
| int_ (i : Z)
| str_ (s : str).

(** [isinstance(v, bool)]; an [int] is not a [bool]. *)
Definition isinstance_bool (v : object_) : bool :=
  match v with
  | bool_ _ => true
  | _ => false
  end.

(** The truth value of [v]. *)
Definition truth (v : object_) : bool :=
  match v with
  | None_ => false
  | bool_ b => b
  | int_ i => negb (i =? 0)
  | str_ s => negb (bool_decide (s = []))
  end.

Section send_cmd.

(** [client.py] calls [re.sub] on line 97 and imports [asyncio],
    [random], [struct] and the names of [errors]: it does not import [re],
    and [errors.py], which declares the exceptions, is not what would bind
    it.  [re_bound] is [false] for the module as it is and [true] for the
    module with the import added. *)
Variable re_bound : bool.

(** [Client.send_cmd]: sends a command to the server. *)
Definition send_cmd (cmd : str) (timeout : option Qp)
    (strip_colors : object_) : M State (str * Z) :=
  let* ready := getattr _ready in
  if negb ready then raise ClientNotConnectedError
  else
    let* value :=
      asyncio.wait_for (_send_msg MessageType.COMMAND cmd) timeout in
    if isinstance_bool strip_colors && truth strip_colors
    then
      if re_bound
      then ret (re.sub_section_any (fst value), snd value)
      else raise (NameError "re")
    else ret value.

End send_cmd.

(** [Client.close]: closes the connection between the client and the
    server. *)
Definition close : M State unit :=
  let* ready := getattr _ready in
  if ready then
    let* writer := object _writer in
    let* _ := lift (asyncio.close writer) in
    let* writer := object _writer in
    let* _ := lift (asyncio.wait_closed writer) in
    update (fun c =>
      {| host := c.(host); port := c.(port); password := c.(password);
         _reader := None; _writer := None; _ready := false |})
  else ret tt.



(** The default value of the [timeout] arguments. *)
Definition default_timeout : option Qp := Some 2%Qp.

(** ** Vocabulary of the specification *)

(** The session state, as the client records it: [_ready]. *)
Inductive SessionState : Type := Disconnected | Ready.

Definition session (s : State) : SessionState :=
  if _ready (self s) then Ready else Disconnected.

(** The stream behind the object [h]. *)
Definition stream_of (s : State) (h : nat) : option asyncio.Stream :=
  asyncio.streams (world s) !! h.

(** The state in which the stream behind [h] has become [st]. *)
Definition with_stream (h : nat) (st : asyncio.Stream) (s : State) : State :=
  {| self := self s;
     world := asyncio.set_streams (<[h := st]> (asyncio.streams (world s)))
                                  (world s) |}.

(** The transport behind [h] has been closed. *)
Definition transport_closed (s : State) (h : nat) : Prop :=
  exists st, stream_of s h = Some st /\ asyncio.closed st = true.

(** The request id that the next [_send_msg] draws, and the state once it
    is drawn. *)
Definition next_id (s : State) : Z :=
  fst (random.randint 0 2147483647 (asyncio.entropy (world s))).

Definition drawn (s : State) : State :=
  {| self := self s;
     world := {| asyncio.streams := asyncio.streams (world s);
                 asyncio.dials := asyncio.dials (world s);
                 asyncio.entropy :=
                   snd (random.randint 0 2147483647
                          (asyncio.entropy (world s))) |} |}.

(** The stream after the client wrote [data] on it. *)
Definition wrote (data : bytes) (st : asyncio.Stream) : asyncio.Stream :=
  {| asyncio.sent := asyncio.sent st ++ data;
     asyncio.buffer := asyncio.buffer st;
     asyncio.eof := asyncio.eof st;
     asyncio.incoming := asyncio.incoming st;
     asyncio.link := asyncio.link st |}.

(** The stream whose reader holds [buf] and still expects [evs]. *)
Definition reading (buf : bytes) (e : bool) (evs : list asyncio.event)
    (st : asyncio.Stream) : asyncio.Stream :=
  {| asyncio.sent := asyncio.sent st;
     asyncio.buffer := buf;
     asyncio.eof := e;
     asyncio.incoming := evs;
     asyncio.link := asyncio.link st |}.

(** A request as lines 61-64 of [_send_msg] lay it out: length, request
    id, type, body, terminator. *)
Definition request (req_id type_ : Z) (body : bytes) : bytes :=
  struct.le32 (Z.of_nat (length body) + 10)
  ++ struct.le32 req_id ++ struct.le32 type_ ++ body ++ [x00; x00].

(** What follows the length of a response, as line 80 of [_send_msg] reads
    it: type at offset 0, request id at offset 4, body, terminator. *)
Definition payload (type_ req_id : Z) (body : bytes) : bytes :=
  struct.le32 type_ ++ struct.le32 req_id ++ body ++ [x00; x00].

(** A whole response: its length, then its payload. *)
Definition response (type_ req_id : Z) (body : bytes) : bytes :=
  struct.le32 (Z.of_nat (length (payload type_ req_id body)))
  ++ payload type_ req_id body.

(** The send path: the statements of [_send_msg] up to [drain]. *)
Definition transmit (type_ : Z) (msg : str) : M State unit :=
  let* req_id := randint 0 2147483647 in
  let* header := of_result (struct.pack_ii req_id type_) in
  let* body := of_result (utf8.encode msg) in
  let packet_data := header ++ body ++ [x00; x00] in
  let* prefix := of_result (struct.pack_i (Z.of_nat (length packet_data))) in
  let packet := prefix ++ packet_data in
  let* writer := object _writer in
  let* _ := lift (asyncio.write writer packet) in
  lift (asyncio.drain writer).

(** What [_send_msg] makes of the bytes [in_data] it read: its statements
    from the terminator check on. *)
Definition parse {S} (in_data : bytes) : M S (str * Z) :=
  if negb (endswith in_data [x00; x00])
  then raise (ValueError "Invalid data received from server.")
  else
    let* '(in_type, in_req_id) :=
      of_result (struct.unpack_ii (slice in_data 0 8)) in
    if in_type =? MessageType.INVALID_AUTH
    then raise IncorrectPasswordError
    else
      let* in_msg :=
        of_result (utf8.decode (slice in_data 8 (-2))) in
      ret (in_msg, in_type).

(** The receive path: the statements of [_send_msg] from the first [read]. *)
Definition receive : M State (str * Z) :=
  let* reader := object _reader in
  let* raw_len := lift (asyncio.read reader 4) in
  let* in_len := of_result (struct.unpack_i raw_len) in
  let* in_data := lift (asyncio.read reader in_len) in
  parse in_data.



(** The statements of [close] up to [wait_closed]. *)
Definition shutdown : M State unit :=
  let* writer := object _writer in
  let* _ := lift (asyncio.close writer) in
  let* writer := object _writer in
  lift (asyncio.wait_closed writer).

(** The state in which [close] has let go of the streams. *)
Definition forgotten (s : State) : State :=
  {| self :=
       {| host := host (self s); port := port (self s);
          password := password (self s);
          _reader := None; _writer := None; _ready := false |};
     world := world s |}.

(** The state once a connection attempt has been used up. *)
Definition dialled (ds : list asyncio.dial) (s : State) : State :=
  {| self := self s;
     world := {| asyncio.streams := asyncio.streams (world s);
                 asyncio.dials := ds;
                 asyncio.entropy := asyncio.entropy (world s) |} |}.

(** The state in which [connect] has opened a connection to a peer and
    stored its reader and writer, before the login. *)
Definition opened (peer : list asyncio.event) (ds : list asyncio.dial)
    (s : State) : State :=
  {| self :=
       {| host := host (self s); port := port (self s);
          password := password (self s);
          _reader := Some (length (asyncio.streams (world s)));
          _writer := Some (length (asyncio.streams (world s)));
          _ready := _ready (self s) |};
     world :=
       {| asyncio.streams := asyncio.streams (world s) ++ [asyncio.fresh peer];
          asyncio.dials := ds;
          asyncio.entropy := asyncio.entropy (world s) |} |}.

(** The state in which the client has been marked ready. *)
Definition readied (s : State) : State :=
  {| self :=
       {| host := host (self s); port := port (self s);
          password := password (self s);
          _reader := _reader (self s); _writer := _writer (self s);
          _ready := true |};
     world := world s |}.


(** [stable R m]: every run of [m] relates the state before to the state
    after by [R], however the run ends. *)
Definition stable (R : State -> State -> Prop) {A} (m : M State A) : Prop :=
  forall s r s', m s = (r, s') -> R s s'.

(** The client object is the same and no stream has disappeared. *)
Definition keeps (s s' : State) : Prop :=
  self s' = self s
  /\ (length (asyncio.streams (world s))
      <= length (asyncio.streams (world s')))%nat.


(** ** Example sessions *)

(** A client that is connected and ready on the only stream of its world;
    the peer will feed [evs]. *)
Definition connected (evs : list asyncio.event) (entropy : list Z) : State :=
  {| self := {| host := "localhost"; port := 25575;
                password := literal "hunter2";
                _reader := Some 0%nat; _writer := Some 0%nat;
                _ready := true |};
     world := {| asyncio.streams := [asyncio.fresh evs];
                 asyncio.dials := [];
                 asyncio.entropy := entropy |} |}.

(** A new client in a world where the one connection attempt meets [d]. *)
Definition newcomer (d : asyncio.dial) : State :=
  {| self := __init__ "localhost" 25575 (literal "hunter2");
     world := {| asyncio.streams := [];
                 asyncio.dials := [d];
                 asyncio.entropy := [1234; 77] |} |}.

(** The server echoes the request of section 8 of the specification:
    request id 1234, type COMMAND, body "help". *)
Definition echo_help : State :=
  connected
    [asyncio.feed_data
       (request 1234 MessageType.COMMAND (list_byte_of_string "help"))]
    [1234].

(** The server answers with type 0, request id 7 and body "hi", a response
    of 12 bytes after its length, which reaches the client in three
    segments: the length, the two integers, the body and terminator. *)
Definition split_reply : State :=
  connected
    [asyncio.feed_data (struct.le32 12);
     asyncio.feed_data (struct.le32 0 ++ struct.le32 7);
     asyncio.feed_data (list_byte_of_string "hi" ++ [x00; x00])]
    [5].

(** The server answers with a response whose declared length is 8: two
    integers (1 and 0) and nothing else. *)
Definition short_reply : State :=
  connected [asyncio.feed_data (struct.le32 8 ++ struct.le32 1 ++ struct.le32 0)]
            [5].

(** The server answers with a payload of 12 bytes that does not end in two
    NUL bytes. *)
Definition unterminated_reply : State :=
  connected
    [asyncio.feed_data
       (struct.le32 12 ++ struct.le32 0 ++ struct.le32 7
        ++ list_byte_of_string "oops")]
    [5].

(** The server answers with type 0 and the body "§aHello". *)
Definition coloured_reply : State :=
  connected
    [asyncio.feed_data
       (response MessageType.RESPONSE 7 [xc2; xa7; "a"; "H"; "e"; "l"; "l"; "o"]%byte)]
    [5].

(** The server accepts the connection and rejects the password. *)
Definition rejected_login : State :=
  newcomer (asyncio.accept
              [asyncio.feed_data (response MessageType.INVALID_AUTH 0 [])]).

(** The server accepts the connection and never answers the login. *)
Definition silent_login : State := newcomer (asyncio.accept []).

(** The server does not complete the TCP handshake. *)
Definition silent_dial : State := newcomer asyncio.no_answer.

(** The server accepts the login, then answers "list". *)
Definition list_players : State :=
  newcomer
    (asyncio.accept
       [asyncio.feed_data (response MessageType.RESPONSE 0 []);
        asyncio.feed_data
          (response MessageType.RESPONSE 0
             (list_byte_of_string "There are 3 players online"))]).

(** The client of [list_players] once [connect] has returned. *)
Definition logged_in : State := snd (connect default_timeout list_players).

(** ** Vocabulary of the further properties *)

(** The client holds the stream [st] of the world as its reader and as its
    writer, on a connection that is up. *)
Definition attached (s : State) (h : nat) (st : asyncio.Stream) : Prop :=
  _reader (self s) = Some h /\ _writer (self s) = Some h
  /\ stream_of s h = Some st /\ asyncio.closed st = false.

(** The reader holds no byte and has not seen the end of file. *)
Definition drained (st : asyncio.Stream) : Prop :=
  asyncio.buffer st = [] /\ asyncio.eof st = false.

(** The client object is the same, and every stream is still there, related
    by [P] to what it was. *)
Definition each (P : asyncio.Stream -> asyncio.Stream -> Prop)
    (s s' : State) : Prop :=
  self s' = self s
  /\ forall h st, stream_of s h = Some st ->
       exists st', stream_of s' h = Some st' /\ P st st'.

(** The transport is as closed or as open as it was. *)
Definition same_transport (st st' : asyncio.Stream) : Prop :=
  asyncio.closed st' = asyncio.closed st.

(** Nothing more has been written, and the transport is as it was. *)
Definition same_output (st st' : asyncio.Stream) : Prop :=
  asyncio.sent st' = asyncio.sent st
  /\ asyncio.closed st' = asyncio.closed st.






(** The server answers with type 0 and a body that is not UTF-8. *)
Definition garbled_reply : State :=
  connected [asyncio.feed_data (response MessageType.RESPONSE 7 [xff])] [5].

(** The server closes the connection without answering. *)
Definition hung_up : State := connected [asyncio.feed_eof] [5].

(** The server never answers. *)
Definition silent_server : State := connected [] [5].

(** The server answers a command with type -1 and a body that is not
    UTF-8. *)
Definition refused_command : State :=
  connected [asyncio.feed_data (response MessageType.INVALID_AUTH 7 [xff])]
            [5].

(** Two responses, "one" and "two", reach the client in one segment. *)
Definition coalesced_replies : State :=
  connected
    [asyncio.feed_data
       (response MessageType.RESPONSE 1 (list_byte_of_string "one")
        ++ response MessageType.RESPONSE 2 (list_byte_of_string "two"))]
    [5; 6].

(** The peer echoes the request that [_send_msg] is about to write on
    [connected [] [1234]], the message being "tick\0tock". *)
Definition echo_nul : State :=
  connected
    [asyncio.feed_data
       (request 1234 MessageType.COMMAND
          (list_byte_of_string "tick" ++ [x00] ++ list_byte_of_string "tock"))]
    [1234].

(** The server refuses the connection. *)
Definition refused_dial : State := newcomer asyncio.refuse.

(** The server cannot be reached. *)
Definition unreachable_dial : State := newcomer asyncio.unreachable.

(** A new client whose password holds a lone surrogate, and a server that
    accepts the connection. *)
Definition surrogate_password : State :=
  {| self := __init__ "localhost" 25575 [112; 55296];
     world := {| asyncio.streams := [];
                 asyncio.dials := [asyncio.accept []];
                 asyncio.entropy := [1234] |} |}.

(** The server answers the login with a response of type 2. *)
Definition odd_login : State :=
  newcomer (asyncio.accept
              [asyncio.feed_data
                 (response MessageType.COMMAND 9 (list_byte_of_string "ok"))]).

(** The server answers with a terminated payload of six bytes. *)
Definition stunted_reply : State :=
  connected
    [asyncio.feed_data (struct.le32 6 ++ [x01; x02; x03; x04; x00; x00])]
    [5].

(** The server answers with a terminated payload of nine bytes. *)
Definition nine_byte_reply : State :=
  connected
    [asyncio.feed_data
       (struct.le32 9 ++ struct.le32 4 ++ [x01; x02; x03; x00; x00])]
    [5].

(** The server answers the login with type 0 and a body that is not
    UTF-8. *)
Definition garbled_login : State :=
  newcomer (asyncio.accept
              [asyncio.feed_data (response MessageType.RESPONSE 0 [xff])]).

(** The first stream of a state (the only one of the example sessions). *)
Definition the_stream (s : State) : asyncio.Stream :=
  default (asyncio.fresh []) (stream_of s 0).

(** The server accepts the login, then closes the connection. *)
Definition hangs_up_after_login : State :=
  newcomer
    (asyncio.accept
       [asyncio.feed_data (response MessageType.RESPONSE 0 []);
        asyncio.feed_eof]).

(** The client of [hangs_up_after_login] once it has connected and sent
    "list", a call that met the end of file. *)
Definition met_eof : State :=
  snd (send_cmd false (literal "list") default_timeout (bool_ true)
         (snd (connect default_timeout hangs_up_after_login))).

(** By now the peer is gone: the next send will fail with a broken
    pipe. *)
Definition peer_gone : State :=
  with_stream 0
    (asyncio.relinked (asyncio.reset BrokenPipeError) (the_stream met_eof))
    met_eof.

(** The client has sent "list" once more: the send has failed and the
    connection is lost. *)
Definition lost_session : State :=
  snd (send_cmd false (literal "list") default_timeout (bool_ true) peer_gone).

(** The server announces the length -1 and sends the two integers in the
    same segment, then the body "hi" and the terminator in a second
    segment, and closes. *)
Definition negative_length : State :=
  connected
    [asyncio.feed_data (struct.le32 (-1) ++ struct.le32 0 ++ struct.le32 7);
     asyncio.feed_data (list_byte_of_string "hi" ++ [x00; x00]);
     asyncio.feed_eof]
    [5].

(** * Properties *)

(** ** Bytes and struct *)

Lemma byte_to_Z_range (b : byte) : 0 <= byte_to_Z b < 256.
Proof.
  unfold byte_to_Z. pose proof (Byte.to_N_bounded b). lia.
Qed.

Lemma byte_to_of_Z (z : Z) : byte_to_Z (byte_of_Z z) = z mod 256.
Proof.
  unfold byte_to_Z, byte_of_Z.
  pose proof (Z.mod_pos_bound z 256 eq_refl) as Hz.
  destruct (Byte.of_N (Z.to_N (z mod 256))) as [b|] eqn:E.
  - apply Byte.to_of_N in E. rewrite E. lia.
  - apply Byte.of_N_None_iff in E. lia.
Qed.

Lemma byte_of_to_Z (b : byte) : byte_of_Z (byte_to_Z b) = b.
Proof.
  unfold byte_of_Z. pose proof (byte_to_Z_range b) as Hb.
  rewrite Z.mod_small by lia. unfold byte_to_Z.
  rewrite N2Z.id, Byte.of_to_N. reflexivity.
Qed.

Lemma byte_to_of_Z_small (z : Z) : 0 <= z < 256 -> byte_to_Z (byte_of_Z z) = z.
Proof. intros Hz. rewrite byte_to_of_Z. apply Z.mod_small, Hz. Qed.

Lemma in_range_spec (v : Z) :
  struct.in_range v = true <-> -2147483648 <= v <= 2147483647.
Proof. unfold struct.in_range, struct.INT_MIN, struct.INT_MAX. lia. Qed.

Lemma length_le32 (v : Z) : length (struct.le32 v) = 4%nat.
Proof. reflexivity. Qed.

Lemma of_le32_le32 (v : Z) :
  struct.in_range v = true ->
  struct.of_le32 (byte_of_Z v) (byte_of_Z (v / 256))
                 (byte_of_Z (v / 65536)) (byte_of_Z (v / 16777216)) = v.
Proof.
  intros Hv%in_range_spec. unfold struct.of_le32, struct.signed32.
  rewrite !byte_to_of_Z.
  destruct (Z.ltb_spec
    (v mod 256 + 256 * ((v / 256) mod 256) + 65536 * ((v / 65536) mod 256)
     + 16777216 * ((v / 16777216) mod 256)) 2147483648);
    Z.to_euclidean_division_equations; lia.
Qed.

Lemma unpack_pack_i (v : Z) :
  struct.in_range v = true -> struct.unpack_i (struct.le32 v) = inr v.
Proof. intros Hv. simpl. f_equal. apply of_le32_le32, Hv. Qed.

Lemma unpack_pack_ii (a b : Z) :
  struct.in_range a = true -> struct.in_range b = true ->
  struct.unpack_ii (struct.le32 a ++ struct.le32 b) = inr (a, b).
Proof.
  intros Ha Hb. simpl. rewrite (of_le32_le32 a Ha), (of_le32_le32 b Hb).
  reflexivity.
Qed.

(** ** The utf8 codec *)

Lemma decode_cons (b0 : byte) (t0 : bytes) :
  utf8.decode (b0 :: t0) =
    let x0 := byte_to_Z b0 in
    if x0 <? 128 then utf8.push x0 (utf8.decode t0)
    else if (194 <=? x0) && (x0 <=? 223) then
      match t0 with
      | b1 :: t1 =>
          let x1 := byte_to_Z b1 in
          if utf8.is_cont x1
          then utf8.push ((x0 - 192) * 64 + (x1 - 128)) (utf8.decode t1)
          else inl UnicodeDecodeError
      | _ => inl UnicodeDecodeError
      end
    else if (224 <=? x0) && (x0 <=? 239) then
      match t0 with
      | b1 :: b2 :: t2 =>
          let x1 := byte_to_Z b1 in
          let x2 := byte_to_Z b2 in
          if utf8.second_of_3 x0 x1 && utf8.is_cont x2
          then utf8.push ((x0 - 224) * 4096 + (x1 - 128) * 64 + (x2 - 128))
                         (utf8.decode t2)
          else inl UnicodeDecodeError
      | _ => inl UnicodeDecodeError
      end
    else if (240 <=? x0) && (x0 <=? 244) then
      match t0 with
      | b1 :: b2 :: b3 :: t3 =>
          let x1 := byte_to_Z b1 in
          let x2 := byte_to_Z b2 in
          let x3 := byte_to_Z b3 in
          if utf8.second_of_4 x0 x1 && utf8.is_cont x2 && utf8.is_cont x3
          then utf8.push ((x0 - 240) * 262144 + (x1 - 128) * 4096
                          + (x2 - 128) * 64 + (x3 - 128))
                         (utf8.decode t3)
          else inl UnicodeDecodeError
      | _ => inl UnicodeDecodeError
      end
    else inl UnicodeDecodeError.
Proof. reflexivity. Qed.

Lemma cont_value (z : Z) : byte_to_Z (utf8.cont z) = 128 + z mod 64.
Proof.
  unfold utf8.cont. apply byte_to_of_Z_small.
  pose proof (Z.mod_pos_bound z 64 eq_refl). lia.
Qed.


(** Names the quotient and the remainder of [a / d], with their equation. *)
Ltac euclid a d q r :=
  pose proof (Z.div_mod a d ltac:(lia));
  pose proof (Z.mod_pos_bound a d ltac:(lia));
  set (q := a / d) in *; set (r := a mod d) in *; clearbody q r.

(** Settles the comparisons of the goal that the context decides, and
    splits on the equalities it does not. *)
Ltac settle :=
  repeat match goal with
    | |- context [?a <? ?b] =>
        first [ replace (a <? b) with true by (symmetry; apply Z.ltb_lt; lia)
              | replace (a <? b) with false by (symmetry; apply Z.ltb_ge; lia) ]
    | |- context [?a <=? ?b] =>
        first [ replace (a <=? b) with true by (symmetry; apply Z.leb_le; lia)
              | replace (a <=? b) with false by (symmetry; apply Z.leb_gt; lia) ]
    | |- context [?a =? ?b] =>
        first [ replace (a =? b) with true by (symmetry; apply Z.eqb_eq; lia)
              | replace (a =? b) with false by (symmetry; apply Z.eqb_neq; lia)
              | destruct (Z.eqb_spec a b) ]
    end.

Lemma decode_encode_char (c : Z) (b rest : bytes) :
  utf8.encode_char c = inr b ->
  utf8.decode (b ++ rest) = utf8.push c (utf8.decode rest).
Proof.
  unfold utf8.encode_char, is_code_point, is_surrogate.
  destruct (Z.leb_spec 0 c); [|discriminate].
  destruct (Z.leb_spec c 1114111); [|discriminate]. simpl.
  destruct (Z.ltb_spec c 128).
  { intros [= <-]. simpl app. rewrite decode_cons. cbv zeta.
    rewrite byte_to_of_Z_small by lia. settle. reflexivity. }
  destruct (Z.ltb_spec c 2048).
  { intros [= <-]. simpl app. rewrite decode_cons. cbv zeta.
    rewrite cont_value. euclid c 64 q r.
    rewrite byte_to_of_Z_small by lia.
    unfold utf8.is_cont. settle. simpl. f_equal. lia. }
  destruct (Z.leb_spec 55296 c), (Z.leb_spec c 57343); simpl;
    try discriminate.
  all: destruct (Z.ltb_spec c 65536); intros [= <-]; simpl app;
    rewrite decode_cons; cbv zeta; rewrite !cont_value.
  all: try (exfalso; lia).
  all: euclid c 64 q1 r1; euclid q1 64 q2 r2; euclid c 4096 q3 r3.
  all: try (euclid q3 64 q4 r4; euclid c 262144 q0 r0).
  all: rewrite byte_to_of_Z_small by lia;
    unfold utf8.second_of_3, utf8.second_of_4, utf8.is_cont; settle; simpl;
    f_equal; lia.
Qed.

(** Decoding undoes encoding, whatever the code points (NUL included). *)
Lemma decode_encode (s : str) (body : bytes) :
  utf8.encode s = inr body -> utf8.decode body = inr s.
Proof.
  revert body. induction s as [|c s IH]; intros body; simpl.
  - intros [= <-]. reflexivity.
  - destruct (utf8.encode_char c) as [|b] eqn:Ec; [discriminate|].
    destruct (utf8.encode s) as [|r]; [discriminate|].
    intros [= <-]. rewrite (decode_encode_char c b r Ec), (IH r eq_refl).
    reflexivity.
Qed.

Lemma encode_char_scalar (c : Z) :
  is_scalar c = true -> exists b, utf8.encode_char c = inr b.
Proof.
  unfold is_scalar, utf8.encode_char.
  intros [-> Hs%negb_true_iff]%andb_prop. rewrite Hs. simpl.
  repeat match goal with |- context [if ?x then _ else _] => destruct x end;
    eauto.
Qed.

(** Every string without a surrogate has an encoding. *)
Lemma encode_scalar (s : str) :
  Forall (fun c => is_scalar c = true) s -> exists body, utf8.encode s = inr body.
Proof.
  induction 1 as [|c s Hc _ [r Hr]]; simpl; [eauto|].
  destruct (encode_char_scalar c Hc) as [b ->]. rewrite Hr. eauto.
Qed.

(** A string with a surrogate has none. *)
Lemma encode_surrogate (s1 s2 : str) (c : Z) :
  is_surrogate c = true -> utf8.encode (s1 ++ c :: s2) = inl UnicodeEncodeError.
Proof.
  intros Hc. induction s1 as [|a s1 IH]; simpl.
  - unfold utf8.encode_char. rewrite Hc.
    unfold is_surrogate in Hc.
    destruct (is_code_point c); simpl; [|reflexivity]. settle. reflexivity.
  - rewrite IH. unfold utf8.encode_char.
    repeat match goal with |- context [if ?x then _ else _] => destruct x end;
      reflexivity.
Qed.

(** ** Running coroutines step by step *)

Lemma bind_eq {S A B} (m : M S A) (k : A -> M S B) (s : S) :
  bind m k s =
    match m s with
    | (Return a, s') => k a s'
    | (Raise e, s') => (Raise e, s')
    | (Blocked, s') => (Blocked, s')
    end.
Proof. reflexivity. Qed.

Lemma bind_return {S A B} (m : M S A) (k : A -> M S B) s a s' :
  m s = (Return a, s') -> bind m k s = k a s'.
Proof. intros H. unfold bind. rewrite H. reflexivity. Qed.

Lemma bind_raise {S A B} (m : M S A) (k : A -> M S B) s e s' :
  m s = (Raise e, s') -> bind m k s = (Raise e, s').
Proof. intros H. unfold bind. rewrite H. reflexivity. Qed.

Lemma bind_blocked {S A B} (m : M S A) (k : A -> M S B) s s' :
  m s = (Blocked, s') -> bind m k s = (Blocked, s').
Proof. intros H. unfold bind. rewrite H. reflexivity. Qed.

Lemma randint_draws s :
  randint 0 2147483647 s = (Return (next_id s), drawn s).
Proof.
  unfold randint, lift, next_id, drawn.
  destruct (random.randint 0 2147483647 (asyncio.entropy (world s))).
  reflexivity.
Qed.

Lemma next_id_range s : struct.in_range (next_id s) = true.
Proof.
  apply in_range_spec. unfold next_id, random.randint.
  destruct (asyncio.entropy (world s)) as [|x rest]; cbn [fst]; [lia|].
  change (2147483647 - 0 + 1) with 2147483648.
  pose proof (Z.mod_pos_bound x 2147483648 eq_refl). lia.
Qed.

Lemma object_some {A} (field : Client -> option A) s o :
  field (self s) = Some o -> object field s = (Return o, s).
Proof. intros H. unfold object. rewrite H. reflexivity. Qed.

Lemma lift_on_stream {A} h (f : asyncio.Stream -> outcome A * asyncio.Stream)
    s st r st' :
  stream_of s h = Some st -> f st = (r, st') ->
  lift (asyncio.on_stream h f) s = (r, with_stream h st' s).
Proof.
  unfold stream_of, lift, asyncio.on_stream, with_stream.
  intros -> ->. reflexivity.
Qed.

Lemma stream_of_with_stream h st st' s :
  stream_of s h = Some st -> stream_of (with_stream h st' s) h = Some st'.
Proof.
  unfold stream_of, with_stream. simpl. intros H.
  apply list_lookup_insert_eq. eapply lookup_lt_Some, H.
Qed.

Lemma with_stream_twice h st1 st2 s :
  with_stream h st2 (with_stream h st1 s) = with_stream h st2 s.
Proof.
  unfold with_stream, asyncio.set_streams. simpl.
  rewrite list_insert_insert_eq. reflexivity.
Qed.

Lemma with_stream_same h st s :
  stream_of s h = Some st -> with_stream h st s = s.
Proof.
  unfold stream_of, with_stream, asyncio.set_streams. intros H.
  rewrite list_insert_id by exact H. destruct s as [c [ss ds en]]. reflexivity.
Qed.

Lemma length_request_data (header body : bytes) :
  length header = 8%nat ->
  Z.of_nat (length (header ++ body ++ [x00; x00])) = Z.of_nat (length body) + 10.
Proof. intros H. rewrite !length_app, H. simpl. lia. Qed.

(** On a connection that is up nothing has failed and nothing is closed. *)
Lemma closed_established st :
  asyncio.closed st = false -> asyncio.link st = asyncio.established.
Proof. unfold asyncio.closed. destruct (asyncio.link st); congruence. Qed.

Lemma established_closed st :
  asyncio.link st = asyncio.established -> asyncio.closed st = false.
Proof. unfold asyncio.closed. intros ->. reflexivity. Qed.

(** A reader whose connection is up reads from its buffer and its peer. *)
Lemma read_stream_up n st :
  asyncio.closed st = false ->
  asyncio.read_stream n st = asyncio.read_buffer n st.
Proof.
  intros Hc. apply closed_established in Hc.
  unfold asyncio.read_stream. rewrite Hc. reflexivity.
Qed.

Lemma closed_wrote data st :
  asyncio.closed (wrote data st) = asyncio.closed st.
Proof. reflexivity. Qed.

Lemma closed_reading buf e evs st :
  asyncio.closed (reading buf e evs st) = asyncio.closed st.
Proof. reflexivity. Qed.

(** The send path writes one request and nothing else. *)
Lemma transmit_sends type_ msg body s h st :
  struct.in_range type_ = true ->
  utf8.encode msg = inr body ->
  Z.of_nat (length body) + 10 <= struct.INT_MAX ->
  _writer (self s) = Some h ->
  stream_of s h = Some st ->
  asyncio.closed st = false ->
  transmit type_ msg s =
    (Return tt,
     with_stream h (wrote (request (next_id s) type_ body) st) (drawn s)).
Proof.
  intros Ht Hb Hl Hw Hs Hc. unfold transmit.
  rewrite (bind_return _ _ _ _ _ (randint_draws s)).
  unfold struct.pack_ii. rewrite next_id_range, Ht. simpl andb. cbv iota.
  rewrite Hb. simpl of_result. unfold bind at 1 2. unfold ret at 1 2.
  cbv zeta.
  rewrite length_request_data by reflexivity.
  unfold struct.pack_i.
  replace (struct.in_range (Z.of_nat (length body) + 10)) with true
    by (symmetry; apply in_range_spec; unfold struct.INT_MAX in Hl; lia).
  simpl of_result. unfold bind at 1. unfold ret at 1.
  rewrite (bind_return _ _ _ _ _ (object_some _writer (drawn s) h Hw)).
  apply closed_established in Hc.
  unfold asyncio.write.
  erewrite bind_return; cycle 1.
  { eapply lift_on_stream; [exact Hs | reflexivity]. }
  rewrite Hc. unfold asyncio.drain.
  erewrite lift_on_stream; cycle 1.
  { eapply stream_of_with_stream, Hs. }
  { reflexivity. }
  rewrite with_stream_twice. unfold wrote. rewrite Hc. reflexivity.
Qed.

Lemma read_zero st :
  asyncio.closed st = false -> asyncio.read_stream 0 st = (Return [], st).
Proof. intros Hc. rewrite read_stream_up by exact Hc. reflexivity. Qed.

(** A read that finds the buffer empty waits for the next chunk and
    returns what it can of that chunk alone. *)
Lemma read_waits n d evs st :
  0 < n -> d <> [] ->
  asyncio.closed st = false ->
  asyncio.buffer st = [] -> asyncio.eof st = false ->
  asyncio.incoming st = asyncio.feed_data d :: evs ->
  asyncio.read_stream n st =
    (Return (take (Z.to_nat n) d), reading (drop (Z.to_nat n) d) false evs st).
Proof.
  intros Hn Hd Hc Hb He Hi. rewrite read_stream_up by exact Hc.
  unfold asyncio.read_buffer.
  replace (n =? 0) with false by lia. replace (n <? 0) with false by lia.
  rewrite Hb, He, Hi. destruct d; [congruence|]. reflexivity.
Qed.

(** A read that finds bytes in the buffer returns at once. *)
Lemma read_buffered n st :
  0 < n -> asyncio.buffer st <> [] ->
  asyncio.closed st = false ->
  asyncio.read_stream n st =
    (Return (take (Z.to_nat n) (asyncio.buffer st)),
     reading (drop (Z.to_nat n) (asyncio.buffer st)) (asyncio.eof st)
             (asyncio.incoming st) st).
Proof.
  intros Hn Hb Hc. rewrite read_stream_up by exact Hc.
  unfold asyncio.read_buffer.
  replace (n =? 0) with false by lia. replace (n <? 0) with false by lia.
  destruct (asyncio.buffer st); [congruence|]. reflexivity.
Qed.

Lemma of_result_inr {S A} (a : A) (s : S) : of_result (inr a) s = (Return a, s).
Proof. reflexivity. Qed.

Lemma of_result_inl {S A} (e : exn) (s : S) :
  of_result (A := A) (inl e) s = (Raise e, s).
Proof. reflexivity. Qed.

(** The receive path on a response that arrives in one piece. *)
Lemma receive_whole s h st pl evs :
  _reader (self s) = Some h ->
  stream_of s h = Some st ->
  asyncio.closed st = false ->
  asyncio.buffer st = [] -> asyncio.eof st = false ->
  asyncio.incoming st
    = asyncio.feed_data (struct.le32 (Z.of_nat (length pl)) ++ pl) :: evs ->
  struct.in_range (Z.of_nat (length pl)) = true ->
  receive s = parse pl (with_stream h (reading [] false evs st) s).
Proof.
  intros Hr Hs Hc Hb He Hi Hl. unfold receive.
  rewrite (bind_return _ _ _ _ _ (object_some _reader s h Hr)).
  unfold asyncio.read.
  erewrite bind_return; cycle 1.
  { eapply lift_on_stream; [exact Hs|].
    apply (read_waits 4 (struct.le32 (Z.of_nat (length pl)) ++ pl) evs);
      [lia | unfold struct.le32; simpl; discriminate
      | exact Hc | exact Hb | exact He | exact Hi]. }
  change (Z.to_nat 4) with 4%nat.
  change (take 4 (struct.le32 (Z.of_nat (length pl)) ++ pl))
    with (struct.le32 (Z.of_nat (length pl))).
  change (drop 4 (struct.le32 (Z.of_nat (length pl)) ++ pl)) with pl.
  rewrite unpack_pack_i by exact Hl.
  rewrite (bind_return _ _ _ _ _ (of_result_inr _ _)).
  destruct pl as [|b pl'] eqn:Epl.
  - erewrite bind_return; cycle 1.
    { eapply lift_on_stream; [eapply stream_of_with_stream, Hs|].
      apply read_zero. exact Hc. }
    rewrite with_stream_twice. reflexivity.
  - rewrite <- Epl in *. erewrite bind_return; cycle 1.
    { eapply lift_on_stream; [eapply stream_of_with_stream, Hs|].
      apply read_buffered;
        [rewrite Epl; simpl; lia | rewrite Epl; discriminate | exact Hc]. }
    rewrite with_stream_twice. simpl asyncio.buffer.
    rewrite Nat2Z.id, firstn_all, drop_all. reflexivity.
Qed.

(** ** The two halves of [_send_msg] *)

Lemma bind_assoc {S A B C} (m : M S A) (f : A -> M S B) (g : B -> M S C) s :
  bind (bind m f) g s = bind m (fun a => bind (f a) g) s.
Proof. unfold bind. destruct (m s) as [[a|e|] s']; reflexivity. Qed.

(** Runs the first statement of both sides of an equation between
    coroutines. *)
Ltac peel :=
  rewrite ?bind_assoc;
  unfold bind at 1; symmetry; unfold bind at 1; symmetry;
  match goal with
  | |- match ?m ?s with _ => _ end = _ =>
      destruct (m s) as [[?|?|] ?]; try reflexivity
  end.

(** [_send_msg] is its send path followed by its receive path. *)
Lemma _send_msg_split (type_ : Z) (msg : str) (s : State) :
  _send_msg type_ msg s = (let* _ := transmit type_ msg in receive) s.
Proof.
  unfold transmit, _send_msg. do 3 peel. cbv zeta. do 3 peel.
Qed.

Lemma endswith_app (a suffix : bytes) : endswith (a ++ suffix) suffix = true.
Proof.
  unfold endswith. apply bool_decide_eq_true.
  rewrite length_app.
  replace (length a + length suffix - length suffix)%nat with (length a) by lia.
  apply drop_app_length.
Qed.

Lemma endswith_short (b suffix : bytes) :
  (length b < length suffix)%nat -> endswith b suffix = false.
Proof.
  intros H. unfold endswith. apply bool_decide_eq_false. intros E.
  apply (f_equal length) in E. rewrite length_drop in E. lia.
Qed.

Lemma payload_terminated (type_ req_id : Z) (body : bytes) :
  endswith (payload type_ req_id body) [x00; x00] = true.
Proof.
  unfold payload. rewrite !app_assoc. apply endswith_app.
Qed.

Lemma length_payload (type_ req_id : Z) (body : bytes) :
  Z.of_nat (length (payload type_ req_id body)) = Z.of_nat (length body) + 10.
Proof. unfold payload. rewrite !length_app. simpl. lia. Qed.

Lemma payload_header (type_ req_id : Z) (body : bytes) :
  slice (payload type_ req_id body) 0 8 = struct.le32 type_ ++ struct.le32 req_id.
Proof.
  unfold slice, slice_index. rewrite length_payload.
  replace (0 <? 0) with false by lia. replace (8 <? 0) with false by lia.
  replace (Z.min 0 (Z.of_nat (length body) + 10)) with 0 by lia.
  replace (Z.min 8 (Z.of_nat (length body) + 10)) with 8 by lia.
  reflexivity.
Qed.

Lemma payload_body (type_ req_id : Z) (body : bytes) :
  slice (payload type_ req_id body) 8 (-2) = body.
Proof.
  unfold slice, slice_index. rewrite length_payload.
  replace (8 <? 0) with false by lia. replace (-2 <? 0) with true by lia.
  replace (Z.min 8 (Z.of_nat (length body) + 10)) with 8 by lia.
  replace (Z.max 0 (Z.of_nat (length body) + 10 + -2))
    with (Z.of_nat (length body) + 8) by lia.
  replace (Z.to_nat (Z.of_nat (length body) + 8) - Z.to_nat 8)%nat
    with (length body) by lia.
  change (drop (Z.to_nat 8) (payload type_ req_id body))
    with (body ++ [x00; x00]).
  apply take_app_length.
Qed.

(** A payload that lacks the terminator is refused. *)
Lemma parse_unterminated {S} (in_data : bytes) (s : S) :
  endswith in_data [x00; x00] = false ->
  parse in_data s = (Raise (ValueError "Invalid data received from server."), s).
Proof. intros H. unfold parse. rewrite H. reflexivity. Qed.

(** A well-formed payload yields its body and the integer at offset 0. *)
Lemma parse_payload {S} (type_ req_id : Z) (body : bytes) (msg : str) (s : S) :
  struct.in_range type_ = true -> struct.in_range req_id = true ->
  type_ <> MessageType.INVALID_AUTH ->
  utf8.decode body = inr msg ->
  parse (payload type_ req_id body) s = (Return (msg, type_), s).
Proof.
  intros Ht Hi Hn Hd. unfold parse.
  rewrite payload_terminated, payload_header, payload_body.
  change (negb true) with false. cbv iota. rewrite unpack_pack_ii by assumption.
  rewrite (bind_return _ _ _ _ _ (of_result_inr _ _)).
  replace (type_ =? MessageType.INVALID_AUTH) with false by lia.
  rewrite Hd. reflexivity.
Qed.

(** A payload with -1 at offset 0 raises [IncorrectPasswordError]. *)
Lemma parse_invalid_auth {S} (req_id : Z) (body : bytes) (s : S) :
  struct.in_range req_id = true ->
  parse (payload MessageType.INVALID_AUTH req_id body) s
  = (Raise IncorrectPasswordError, s).
Proof.
  intros Hi. unfold parse.
  rewrite payload_terminated, payload_header.
  change (negb true) with false. cbv iota.
  rewrite unpack_pack_ii by (assumption || reflexivity).
  rewrite (bind_return _ _ _ _ _ (of_result_inr _ _)). reflexivity.
Qed.

(** A request, read as a response: the request id is where the type is
    looked for. *)
Lemma request_as_response (req_id type_ : Z) (body : bytes) :
  request req_id type_ body = response req_id type_ body.
Proof. unfold request, response. rewrite length_payload. reflexivity. Qed.

Lemma self_with_stream h st s : self (with_stream h st s) = self s.
Proof. reflexivity. Qed.

Lemma self_drawn s : self (drawn s) = self s.
Proof. reflexivity. Qed.

Lemma stream_of_drawn s h : stream_of (drawn s) h = stream_of s h.
Proof. reflexivity. Qed.

(** [_send_msg] when the response arrives in one piece, after the request
    went out: one request is written and the payload is parsed. *)
Lemma _send_msg_whole type_ msg body s h st pl evs :
  struct.in_range type_ = true ->
  utf8.encode msg = inr body ->
  Z.of_nat (length body) + 10 <= struct.INT_MAX ->
  _writer (self s) = Some h -> _reader (self s) = Some h ->
  stream_of s h = Some st ->
  asyncio.closed st = false ->
  asyncio.buffer st = [] -> asyncio.eof st = false ->
  asyncio.incoming st
    = asyncio.feed_data (struct.le32 (Z.of_nat (length pl)) ++ pl) :: evs ->
  struct.in_range (Z.of_nat (length pl)) = true ->
  _send_msg type_ msg s =
    parse pl
      (with_stream h
         (reading [] false evs (wrote (request (next_id s) type_ body) st))
         (drawn s)).
Proof.
  intros Ht Hb Hl Hw Hr Hs Hc Hbuf He Hi Hpl.
  rewrite _send_msg_split.
  rewrite (bind_return _ _ _ _ _
             (transmit_sends type_ msg body s h st Ht Hb Hl Hw Hs Hc)).
  erewrite receive_whole; cycle 1.
  - rewrite self_with_stream, self_drawn. exact Hr.
  - eapply stream_of_with_stream. rewrite stream_of_drawn. exact Hs.
  - exact Hc.
  - exact Hbuf.
  - exact He.
  - exact Hi.
  - exact Hpl.
  - rewrite with_stream_twice. reflexivity.
Qed.

(** ** The public methods *)

Lemma bind_ret_r {S A} (m : M S A) (s : S) : bind m ret s = m s.
Proof. unfold bind, ret. destruct (m s) as [[a|e|] s']; reflexivity. Qed.

(** A client that is not ready refuses commands and touches nothing. *)
Lemma send_cmd_not_ready re_bound cmd timeout strip_colors s :
  _ready (self s) = false ->
  send_cmd re_bound cmd timeout strip_colors s
  = (Raise ClientNotConnectedError, s).
Proof. intros H. unfold send_cmd, bind, getattr. rewrite H. reflexivity. Qed.

(** C7. [send_cmd] on a client that was never connected raises
    [ClientNotConnectedError] (the specification's NotConnected) and leaves
    the whole world as it was: no transport receives a byte. *)
Theorem send_cmd_before_connect
    re_bound host port password w cmd timeout strip_colors :
  send_cmd re_bound cmd timeout strip_colors
    {| self := __init__ host port password; world := w |}
  = (Raise ClientNotConnectedError,
     {| self := __init__ host port password; world := w |}).
Proof. apply send_cmd_not_ready. reflexivity. Qed.

(** C9. On a ready client, [send_cmd] with any [strip_colors] other than
    the boolean [True] (the integer 1, say, although it is truthy) returns
    what the round trip returned, body untouched; with [True] itself it
    goes through the stripping branch. *)
Theorem strip_colors_only_when_True re_bound cmd timeout s :
  _ready (self s) = true ->
  (forall strip_colors,
     strip_colors <> bool_ true ->
     send_cmd re_bound cmd timeout strip_colors s
     = asyncio.wait_for (_send_msg MessageType.COMMAND cmd) timeout s)
  /\ send_cmd re_bound cmd timeout (bool_ true) s
     = (let* value :=
          asyncio.wait_for (_send_msg MessageType.COMMAND cmd) timeout in
        if re_bound
        then ret (re.sub_section_any (fst value), snd value)
        else raise (NameError "re")) s.
Proof.
  intros Hready. split.
  - intros v Hv. unfold send_cmd.
    rewrite (bind_return _ _ s true s) by (unfold getattr; rewrite Hready; reflexivity).
    simpl negb. cbv iota.
    replace (isinstance_bool v && truth v) with false.
    + apply bind_ret_r.
    + destruct v as [|[|]| |]; try reflexivity. congruence.
  - unfold send_cmd.
    rewrite (bind_return _ _ s true s) by (unfold getattr; rewrite Hready; reflexivity).
    reflexivity.
Qed.

(** ** What no coroutine of the client undoes *)

Section stable.

(** A relation between the state before and the state after. *)
Variable R : State -> State -> Prop.
Hypothesis R_refl : forall s, R s s.
Hypothesis R_trans : forall s1 s2 s3, R s1 s2 -> R s2 s3 -> R s1 s3.

Lemma stable_ret {A} (a : A) : stable R (ret a).
Proof. intros s r s' [= _ <-]. apply R_refl. Qed.

Lemma stable_raise {A} (e : exn) : stable R (raise (A := A) e).
Proof. intros s r s' [= _ <-]. apply R_refl. Qed.

Lemma stable_of_result {A} (x : result A) : stable R (of_result x).
Proof. destruct x; [apply stable_raise | apply stable_ret]. Qed.

Lemma stable_getattr {A} (f : Client -> A) : stable R (getattr f).
Proof. intros s r s' [= _ <-]. apply R_refl. Qed.

Lemma stable_object {A} (f : Client -> option A) : stable R (object f).
Proof.
  intros s r s'. unfold object.
  destruct (f (self s)); intros [= _ <-]; apply R_refl.
Qed.

Lemma stable_bind {A B} (m : M State A) (k : A -> M State B) :
  stable R m -> (forall a, stable R (k a)) -> stable R (bind m k).
Proof.
  intros Hm Hk s r s'. unfold bind.
  destruct (m s) as [[a|e|] s1] eqn:E; intros H.
  - eapply R_trans; [eapply Hm, E | eapply Hk, H].
  - injection H as _ <-. eapply Hm, E.
  - injection H as _ <-. eapply Hm, E.
Qed.

Lemma stable_wait_for {A} (m : M State A) timeout :
  stable R m -> stable R (asyncio.wait_for m timeout).
Proof.
  intros Hm s r s'. unfold asyncio.wait_for.
  destruct (m s) as [[a|e|] s1] eqn:E; destruct timeout;
    intros [= _ <-]; eapply Hm, E.
Qed.

End stable.

Lemma keeps_refl s : keeps s s.
Proof. split; [reflexivity | lia]. Qed.

Lemma keeps_trans s1 s2 s3 : keeps s1 s2 -> keeps s2 s3 -> keeps s1 s3.
Proof. intros [H1 L1] [H2 L2]. split; [congruence | lia]. Qed.

Lemma keeps_on_stream {A} h (f : asyncio.Stream -> outcome A * asyncio.Stream) :
  stable keeps (lift (asyncio.on_stream h f)).
Proof.
  intros s r s'. unfold lift, asyncio.on_stream.
  destruct (asyncio.streams (world s) !! h) as [st|].
  - destruct (f st) as [r' st']. intros [= _ <-]. split; [reflexivity|].
    simpl. rewrite length_insert. lia.
  - intros [= _ <-]. split; [reflexivity | simpl; lia].
Qed.

Lemma keeps_randint a b : stable keeps (randint a b).
Proof.
  intros s r s'. unfold randint, lift.
  destruct (random.randint a b (asyncio.entropy (world s))).
  intros [= _ <-]. split; [reflexivity | simpl; lia].
Qed.

Lemma keeps_parse in_data : stable keeps (parse in_data).
Proof.
  unfold parse. destruct (negb (endswith in_data [x00; x00])).
  - apply stable_raise, keeps_refl.
  - apply stable_bind;
      [apply keeps_trans | apply stable_of_result, keeps_refl |].
    intros [in_type in_req_id].
    destruct (in_type =? MessageType.INVALID_AUTH).
    + apply stable_raise, keeps_refl.
    + apply stable_bind;
        [apply keeps_trans | apply stable_of_result, keeps_refl |].
      intros ?. apply stable_ret, keeps_refl.
Qed.

(** Chains the stability lemmas along the statements of a coroutine. *)
Ltac keeps_step :=
  first
    [ apply stable_ret, keeps_refl
    | apply stable_raise, keeps_refl
    | apply stable_of_result, keeps_refl
    | apply stable_getattr, keeps_refl
    | apply stable_object, keeps_refl
    | apply keeps_randint
    | apply keeps_on_stream
    | apply keeps_parse
    | apply stable_bind; [apply keeps_trans | | intros ?] ].

Lemma keeps_transmit type_ msg : stable keeps (transmit type_ msg).
Proof.
  unfold transmit, asyncio.write, asyncio.drain. repeat keeps_step.
Qed.

Lemma keeps_receive : stable keeps receive.
Proof. unfold receive, asyncio.read. repeat keeps_step. Qed.

Lemma keeps__send_msg type_ msg : stable keeps (_send_msg type_ msg).
Proof.
  intros s r s' H. rewrite _send_msg_split in H. revert s r s' H.
  apply stable_bind;
    [apply keeps_trans | apply keeps_transmit | intros _; apply keeps_receive].
Qed.

(** ** connect *)

Lemma connect_ready timeout s :
  _ready (self s) = true -> connect timeout s = (Return tt, s).
Proof. intros H. unfold connect, bind, getattr. rewrite H. reflexivity. Qed.

(** Enters the body of [connect] on a client that is not ready, up to the
    connection attempt. *)
Ltac enter_connect Hr :=
  unfold connect;
  match type of Hr with
  | _ready (self ?s) = false =>
      rewrite (bind_return _ _ s false s)
        by (unfold getattr; rewrite Hr; reflexivity);
      cbv iota;
      rewrite (bind_return _ _ s (host (self s)) s) by reflexivity;
      rewrite (bind_return _ _ s (port (self s)) s) by reflexivity
  end.

(** Once the peer has accepted the connection, [connect] is the login
    round trip followed by the assignment of [_ready]. *)
Lemma connect_accepted timeout s peer ds :
  _ready (self s) = false ->
  asyncio.dials (world s) = asyncio.accept peer :: ds ->
  connect timeout s =
    match _send_msg MessageType.LOGIN (password (self s)) (opened peer ds s) with
    | (Return _, s1) => (Return tt, readied s1)
    | (Raise e, s1) => (Raise e, s1)
    | (Blocked, s1) => (Blocked, s1)
    end.
Proof.
  intros Hr Hd. enter_connect Hr.
  erewrite bind_return; cycle 1.
  { unfold try_except, asyncio.wait_for, lift, asyncio.open_connection.
    rewrite Hd. destruct timeout; reflexivity. }
  cbv iota beta.
  erewrite bind_return by reflexivity.
  erewrite bind_return by reflexivity.
  unfold bind, update, opened, readied, asyncio.set_streams. simpl.
  match goal with
  | |- match ?x with _ => _ end = match ?y with _ => _ end =>
      change x with y; destruct y as [[a|e|] s1]; reflexivity
  end.
Qed.


Lemma connect_nobody timeout s :
  _ready (self s) = false ->
  asyncio.dials (world s) = [] ->
  exists e, connect timeout s = (Raise e, s).
Proof.
  intros Hr Hd. enter_connect Hr.
  unfold bind at 1, try_except, asyncio.wait_for, lift,
    asyncio.open_connection.
  rewrite Hd. destruct timeout; eexists; destruct s; reflexivity.
Qed.

(** ** close *)

Lemma close_not_ready s : _ready (self s) = false -> close s = (Return tt, s).
Proof. intros H. unfold close, bind, getattr. rewrite H. reflexivity. Qed.

(** [close] on a ready client is [shutdown], then the reset of the
    attributes if [shutdown] returns. *)
Lemma close_split s :
  _ready (self s) = true ->
  close s =
    match shutdown s with
    | (Return _, s1) => (Return tt, forgotten s1)
    | (Raise e, s1) => (Raise e, s1)
    | (Blocked, s1) => (Blocked, s1)
    end.
Proof.
  intros Hr. unfold close, shutdown, bind, getattr. rewrite Hr.
  destruct (object _writer s) as [[w|e|] s1]; try reflexivity.
  destruct (lift (asyncio.close w) s1) as [[[]|e|] s2]; try reflexivity.
  destruct (object _writer s2) as [[w'|e|] s3]; reflexivity.
Qed.

(** What [shutdown] does, by the state of the connection: it closes a
    transport that is open and returns, and it raises the exception a
    failed connection was lost with. *)
Lemma shutdown_run s h st :
  _writer (self s) = Some h -> stream_of s h = Some st ->
  shutdown s =
    match asyncio.link st with
    | asyncio.established | asyncio.reset _ =>
        (Return tt, with_stream h (asyncio.relinked asyncio.shut st) s)
    | asyncio.shut => (Return tt, s)
    | asyncio.dying e =>
        (Raise e, with_stream h (asyncio.relinked (asyncio.lost e) st) s)
    | asyncio.lost e => (Raise e, s)
    end.
Proof.
  intros Hw Hs. unfold shutdown.
  rewrite (bind_return _ _ _ _ _ (object_some _writer s h Hw)).
  unfold asyncio.close. erewrite bind_return; cycle 1.
  { eapply lift_on_stream; [exact Hs | reflexivity]. }
  erewrite bind_return; cycle 1.
  { apply object_some. rewrite self_with_stream. exact Hw. }
  unfold asyncio.wait_closed.
  destruct (asyncio.link st) as [|e|e|e|] eqn:El.
  - erewrite lift_on_stream;
      [| eapply stream_of_with_stream, Hs | reflexivity].
    rewrite with_stream_twice. reflexivity.
  - erewrite lift_on_stream;
      [| eapply stream_of_with_stream, Hs | reflexivity].
    rewrite with_stream_twice. reflexivity.
  - erewrite lift_on_stream;
      [| eapply stream_of_with_stream, Hs | rewrite El; reflexivity].
    rewrite with_stream_twice. reflexivity.
  - erewrite lift_on_stream;
      [| eapply stream_of_with_stream, Hs | rewrite El; reflexivity].
    rewrite with_stream_twice, (with_stream_same h st s Hs). reflexivity.
  - erewrite lift_on_stream;
      [| eapply stream_of_with_stream, Hs | rewrite El; reflexivity].
    rewrite with_stream_twice, (with_stream_same h st s Hs). reflexivity.
Qed.



(** [close] on a ready client whose connection was lost with [e]: it
    raises [e] out of [wait_closed], before the attributes are reset. *)
Lemma close_lost s h st e :
  _ready (self s) = true -> _writer (self s) = Some h ->
  stream_of s h = Some st -> asyncio.link st = asyncio.lost e ->
  close s = (Raise e, s).
Proof.
  intros Hr Hw Hs El.
  rewrite (close_split s Hr), (shutdown_run s h st Hw Hs), El. reflexivity.
Qed.









(** ** Sessions *)

Lemma stream_of_opened peer ds s :
  stream_of (opened peer ds s) (length (asyncio.streams (world s)))
  = Some (asyncio.fresh peer).
Proof. unfold stream_of, opened. simpl. apply list_lookup_middle. reflexivity. Qed.

Lemma in_range_length_payload type_ req_id body :
  Z.of_nat (length body) + 10 <= struct.INT_MAX ->
  struct.in_range (Z.of_nat (length (payload type_ req_id body))) = true.
Proof.
  intros H. rewrite length_payload. apply in_range_spec.
  unfold struct.INT_MAX in H. lia.
Qed.

(** The login round trip of [connect], when the peer's first chunk is one
    whole response. *)
Lemma login_whole s peer peer_type peer_id peer_body evs ds pwb :
  utf8.encode (password (self s)) = inr pwb ->
  Z.of_nat (length pwb) + 10 <= struct.INT_MAX ->
  Z.of_nat (length peer_body) + 10 <= struct.INT_MAX ->
  peer = asyncio.feed_data (response peer_type peer_id peer_body) :: evs ->
  _send_msg MessageType.LOGIN (password (self s)) (opened peer ds s)
  = parse (payload peer_type peer_id peer_body)
      (with_stream (length (asyncio.streams (world s)))
         (reading [] false evs
            (wrote (request (next_id s) MessageType.LOGIN pwb)
                   (asyncio.fresh peer)))
         (drawn (opened peer ds s))).
Proof.
  intros Hpw Hl Hb Hpeer.
  apply (_send_msg_whole MessageType.LOGIN (password (self s)) pwb
           (opened peer ds s) (length (asyncio.streams (world s)))
           (asyncio.fresh peer)
           (payload peer_type peer_id peer_body) evs);
    try reflexivity; try assumption.
  - apply stream_of_opened.
  - apply in_range_length_payload, Hb.
Qed.

(** Were [re] bound in the module (first argument of [send_cmd]), the
    session would go as the specification describes it.  The server accepts
    the connection, answers the login with a response of type 0 (any
    request id, any well-formed body) and answers the command with a
    response of type 0 and body "There are 3 players online", each response
    arriving whole: [connect] returns, the client is Ready, and
    [send_cmd("list")] with its default arguments returns
    [("There are 3 players online", 0)]. *)
Lemma list_players_session host port pw pwb w ds id1 id2 body1 msg1 :
  utf8.encode pw = inr pwb ->
  Z.of_nat (length pwb) + 10 <= struct.INT_MAX ->
  struct.in_range id1 = true -> struct.in_range id2 = true ->
  utf8.decode body1 = inr msg1 ->
  Z.of_nat (length body1) + 10 <= struct.INT_MAX ->
  asyncio.dials w
  = asyncio.accept
      [ asyncio.feed_data (response MessageType.RESPONSE id1 body1);
        asyncio.feed_data
          (response MessageType.RESPONSE id2
             (list_byte_of_string "There are 3 players online")) ] :: ds ->
  exists s1 s2,
    connect default_timeout {| self := __init__ host port pw; world := w |}
    = (Return tt, s1)
    /\ session s1 = Ready
    /\ send_cmd true (literal "list") default_timeout (bool_ true) s1
       = (Return (literal "There are 3 players online", 0), s2).
Proof.
  intros Hpw Hl Hid1 Hid2 Hb1 Hl1 Hd.
  set (s0 := {| self := __init__ host port pw; world := w |}).
  set (answer := asyncio.feed_data
         (response MessageType.RESPONSE id2
            (list_byte_of_string "There are 3 players online"))) in *.
  set (peer := [asyncio.feed_data (response MessageType.RESPONSE id1 body1);
                answer]) in *.
  set (h := length (asyncio.streams w)).
  set (st1 := reading [] false [answer]
                (wrote (request (next_id s0) MessageType.LOGIN pwb)
                       (asyncio.fresh peer))).
  set (s1 := readied (with_stream h st1 (drawn (opened peer ds s0)))).
  assert (Hs1 : stream_of s1 h = Some st1).
  { apply stream_of_with_stream with (st := asyncio.fresh peer).
    apply (stream_of_opened peer ds s0). }
  exists s1. eexists. split; [|split].
  - rewrite (connect_accepted default_timeout s0 peer ds eq_refl Hd).
    rewrite (login_whole s0 peer MessageType.RESPONSE id1 body1 [answer] ds
               pwb Hpw Hl Hl1 eq_refl).
    rewrite (parse_payload MessageType.RESPONSE id1 body1 msg1 _
               eq_refl Hid1 ltac:(discriminate) Hb1).
    reflexivity.
  - reflexivity.
  - unfold send_cmd.
    rewrite (bind_return _ _ s1 true s1) by reflexivity.
    change (negb true) with false. cbv iota.
    erewrite bind_return; cycle 1.
    { unfold asyncio.wait_for.
      rewrite (_send_msg_whole MessageType.COMMAND (literal "list")
                 (list_byte_of_string "list") s1 h st1
                 (payload MessageType.RESPONSE id2
                    (list_byte_of_string "There are 3 players online")) []
                 eq_refl eq_refl ltac:(discriminate) eq_refl eq_refl Hs1
                 eq_refl eq_refl eq_refl eq_refl eq_refl).
      rewrite (parse_payload MessageType.RESPONSE id2
                 (list_byte_of_string "There are 3 players online")
                 (literal "There are 3 players online") _
                 eq_refl Hid2 ltac:(discriminate) eq_refl).
      reflexivity. }
    reflexivity.
Qed.

(** C2. The session of the specification, with [client.py] as it is: the
    module does not import [re].  The server accepts the connection and
    answers the login with a response of type 0: [connect] returns and the
    client is Ready.  [send_cmd("list")] with its default arguments writes
    the command after the login, reads the response of type 0 and body
    "There are 3 players online", and then raises [NameError] on line 97
    instead of returning the pair.  With [strip_colors=False], which does
    not reach line 97, the same call returns the pair. *)
Theorem list_players_raises_NameError :
  exists s2,
    connect default_timeout list_players = (Return tt, logged_in)
    /\ session logged_in = Ready
    /\ send_cmd false (literal "list") default_timeout (bool_ true) logged_in
       = (Raise (NameError "re"), s2)
    /\ asyncio.sent <$> stream_of s2 0
       = Some (request 1234 MessageType.LOGIN (list_byte_of_string "hunter2")
               ++ request 77 MessageType.COMMAND (list_byte_of_string "list"))
    /\ asyncio.buffer <$> stream_of s2 0 = Some []
    /\ fst (send_cmd false (literal "list") default_timeout (bool_ false)
              logged_in)
       = Return (literal "There are 3 players online", 0).
Proof.
  eexists. split; [vm_compute; reflexivity|].
  split; [reflexivity|]. split; [vm_compute; reflexivity|].
  split; [vm_compute; reflexivity|]. split; vm_compute; reflexivity.
Qed.

(** ** The round trip *)

(** When the peer echoes the request, byte for byte, in one piece,
    [_send_msg] returns the body it sent and, as the type, the request id
    it drew: whatever the type and the (encodable) body. *)
Lemma echo_returns_request_id type_ msg body s h st evs :
  struct.in_range type_ = true ->
  utf8.encode msg = inr body ->
  Z.of_nat (length body) + 10 <= struct.INT_MAX ->
  _writer (self s) = Some h -> _reader (self s) = Some h ->
  stream_of s h = Some st ->
  asyncio.closed st = false ->
  asyncio.buffer st = [] -> asyncio.eof st = false ->
  asyncio.incoming st
    = asyncio.feed_data (request (next_id s) type_ body) :: evs ->
  fst (_send_msg type_ msg s) = Return (msg, next_id s).
Proof.
  intros Ht Hb Hl Hw Hr Hs Hc Hbuf He Hi.
  rewrite request_as_response in Hi.
  rewrite (_send_msg_whole type_ msg body s h st
             (payload (next_id s) type_ body) evs
             Ht Hb Hl Hw Hr Hs Hc Hbuf He Hi
             (in_range_length_payload _ _ _ Hl)).
  rewrite (parse_payload (next_id s) type_ body msg _
             (next_id_range s) Ht).
  - reflexivity.
  - pose proof (next_id_range s) as Hn. unfold MessageType.INVALID_AUTH.
    unfold next_id, random.randint in *.
    destruct (asyncio.entropy (world s)) as [|x rest]; cbn [fst]; [lia|].
    change (2147483647 - 0 + 1) with 2147483648.
    pose proof (Z.mod_pos_bound x 2147483648 eq_refl). lia.
  - apply decode_encode, Hb.
Qed.

(** C1. The request of the specification's own example (request id 1234,
    type COMMAND = 2, body "help"), produced by the send path and handed
    back to the receive path byte for byte, decodes to the body "help" and
    the type 1234: the request id.  The pair (type, body) does not come
    back: line 80 reads the first integer of the payload as the type, and
    line 61 writes the request id there. *)
Theorem help_round_trip_yields_request_id :
  exists s',
    _send_msg MessageType.COMMAND (literal "help") echo_help
    = (Return (literal "help", 1234), s')
    /\ asyncio.sent <$> stream_of s' 0
       = Some (request 1234 MessageType.COMMAND (list_byte_of_string "help"))
    /\ (literal "help", 1234) <> (literal "help", MessageType.COMMAND).
Proof.
  eexists. split; [vm_compute; reflexivity|]. split.
  - vm_compute. reflexivity.
  - intros [= H].
Qed.

(** ** Short reads *)

Lemma read_buffer_at_most n st data st' :
  0 <= n ->
  asyncio.read_buffer n st = (Return data, st') ->
  (length data <= Z.to_nat n)%nat.
Proof.
  intros Hn. unfold asyncio.read_buffer.
  destruct (Z.eqb_spec n 0); [intros [= <- _]; simpl; lia|].
  replace (n <? 0) with false by lia.
  destruct (asyncio.buffer st) as [|b buf], (asyncio.eof st);
    try (intros [= <- _]; rewrite length_take; lia).
  destruct (asyncio.wait_for_data (asyncio.incoming st)) as [[[d e] rest]|];
    [|discriminate].
  intros [= <- _]. rewrite length_take. lia.
Qed.

(** What [read(n)] does promise: never more than [n] bytes. *)
Lemma read_at_most n st data st' :
  0 <= n ->
  asyncio.read_stream n st = (Return data, st') ->
  (length data <= Z.to_nat n)%nat.
Proof.
  intros Hn. unfold asyncio.read_stream.
  destruct (asyncio.link st); try discriminate;
    apply read_buffer_at_most, Hn.
Qed.

(** And when [n] bytes are already buffered, on a connection that is up,
    exactly [n]. *)
Lemma read_exact_when_buffered n st :
  0 < n -> (Z.to_nat n <= length (asyncio.buffer st))%nat ->
  asyncio.closed st = false ->
  exists data st',
    asyncio.read_stream n st = (Return data, st')
    /\ length data = Z.to_nat n.
Proof.
  intros Hn Hlen Hc. rewrite read_buffered.
  - eexists. eexists. split; [reflexivity|]. rewrite length_take. lia.
  - exact Hn.
  - destruct (asyncio.buffer st); [simpl in Hlen; lia | discriminate].
  - exact Hc.
Qed.

(** C3. The reader holds no bytes and the peer's next segment carries 8 of
    the 12 bytes that the length announced: [read(12)] returns those 8
    bytes.  [_send_msg] parses them, since they end in two NUL bytes, and
    returns an empty body for the response whose body is "hi". *)
Theorem read_returns_what_has_arrived :
  (exists st',
     asyncio.read_stream 12
       (asyncio.fresh
          [asyncio.feed_data (struct.le32 0 ++ struct.le32 7);
           asyncio.feed_data (list_byte_of_string "hi" ++ [x00; x00])])
     = (Return (struct.le32 0 ++ struct.le32 7), st'))
  /\ length (struct.le32 0 ++ struct.le32 7) = 8%nat
  /\ fst (_send_msg MessageType.COMMAND (literal "list") split_reply)
     = Return ([], 0).
Proof.
  split; [eexists; vm_compute; reflexivity|].
  split; vm_compute; reflexivity.
Qed.

(** ** A rejected password *)

(** C4, counterexample. The server rejects the password: [connect] raises
    [IncorrectPasswordError], and the stream that it opened has not been
    closed. *)
Lemma rejected_login_leaves_transport_open :
  exists s1,
    connect default_timeout rejected_login = (Raise IncorrectPasswordError, s1)
    /\ ~ transport_closed s1 0.
Proof.
  eexists. split; [vm_compute; reflexivity|].
  intros (st & Hst & Hclosed). vm_compute in Hst. injection Hst as <-.
  discriminate Hclosed.
Qed.

(** C4, amended. When the response to the login has type -1
    (INVALID_AUTH), [connect] raises [IncorrectPasswordError] (the
    specification's AuthenticationFailed) and the client stays
    Disconnected; the transport is left open and the client still holds
    its writer; a [send_cmd] that follows raises [ClientNotConnectedError]
    (NotConnected) and changes nothing. *)
Theorem rejected_login_stays_disconnected
    timeout s peer evs ds pwb req_id body :
  _ready (self s) = false ->
  asyncio.dials (world s) = asyncio.accept peer :: ds ->
  peer = asyncio.feed_data (response MessageType.INVALID_AUTH req_id body)
         :: evs ->
  utf8.encode (password (self s)) = inr pwb ->
  Z.of_nat (length pwb) + 10 <= struct.INT_MAX ->
  struct.in_range req_id = true ->
  Z.of_nat (length body) + 10 <= struct.INT_MAX ->
  exists s1,
    connect timeout s = (Raise IncorrectPasswordError, s1)
    /\ session s1 = Disconnected
    /\ (exists h st,
          _writer (self s1) = Some h /\ stream_of s1 h = Some st
          /\ asyncio.closed st = false)
    /\ forall re_bound cmd timeout' strip_colors,
         send_cmd re_bound cmd timeout' strip_colors s1
         = (Raise ClientNotConnectedError, s1).
Proof.
  intros Hr Hd Hpeer Hpw Hl Hid Hb.
  rewrite (connect_accepted timeout s peer ds Hr Hd).
  rewrite (login_whole s peer MessageType.INVALID_AUTH req_id body evs ds pwb
             Hpw Hl Hb Hpeer).
  rewrite (parse_invalid_auth req_id body _ Hid).
  eexists. split; [reflexivity|].
  assert (Hr1 : _ready (self (with_stream (length (asyncio.streams (world s)))
                   (reading [] false evs
                      (wrote (request (next_id s) MessageType.LOGIN pwb)
                             (asyncio.fresh peer)))
                   (drawn (opened peer ds s)))) = false) by exact Hr.
  split; [unfold session; rewrite Hr1; reflexivity|].
  split.
  - eexists. eexists. split; [reflexivity|]. split.
    + eapply stream_of_with_stream, stream_of_opened.
    + reflexivity.
  - intros. apply send_cmd_not_ready, Hr1.
Qed.

(** ** Timeouts *)

(** C5, counterexample. The server accepts the connection and never
    answers the login: [connect] with its default timeout raises nothing;
    it waits. *)
Lemma silent_login_blocks_connect :
  fst (connect default_timeout silent_login) = Blocked
  /\ ~ (exists cause,
          fst (connect default_timeout silent_login)
          = Raise (RCONConnectionError
                     "A timeout occurred whilst attempting to connect to the server."
                     cause)).
Proof.
  split; [vm_compute; reflexivity|].
  intros (cause & H). vm_compute in H. discriminate H.
Qed.

(** C5, amended. When the timeout elapses during the TCP connection
    establishment, whether asyncio gives up waiting or the system reports
    the timeout, [connect] raises [RCONConnectionError] with the timeout
    message (the specification's ConnectTimeout) and the client is as it
    was.  The timeout does not bound the login round trip: when the login
    is never answered, [connect] waits. *)
Theorem connect_timeout_bounds_the_handshake t s ds :
  _ready (self s) = false ->
  (asyncio.dials (world s) = asyncio.no_answer :: ds ->
   connect (Some t) s
   = (Raise (RCONConnectionError
               "A timeout occurred whilst attempting to connect to the server."
               asyncio_TimeoutError),
      dialled ds s))
  /\ (asyncio.dials (world s) = asyncio.os_timeout :: ds ->
      connect (Some t) s
      = (Raise (RCONConnectionError
                  "A timeout occurred whilst attempting to connect to the server."
                  TimeoutError),
         dialled ds s))
  /\ (forall pwb,
        asyncio.dials (world s) = asyncio.accept [] :: ds ->
        utf8.encode (password (self s)) = inr pwb ->
        Z.of_nat (length pwb) + 10 <= struct.INT_MAX ->
        fst (connect (Some t) s) = Blocked).
Proof.
  intros Hr. split; [|split].
  - intros Hd. enter_connect Hr.
    unfold bind at 1, try_except, asyncio.wait_for, lift,
      asyncio.open_connection.
    rewrite Hd. reflexivity.
  - intros Hd. enter_connect Hr.
    unfold bind at 1, try_except, asyncio.wait_for, lift,
      asyncio.open_connection.
    rewrite Hd. reflexivity.
  - intros pwb Hd Hpw Hl.
    rewrite (connect_accepted (Some t) s [] ds Hr Hd).
    rewrite _send_msg_split.
    rewrite (bind_return _ _ _ _ _
               (transmit_sends MessageType.LOGIN (password (self s)) pwb
                  (opened [] ds s) (length (asyncio.streams (world s)))
                  (asyncio.fresh []) eq_refl Hpw Hl eq_refl
                  (stream_of_opened [] ds s) eq_refl)).
    unfold receive.
    erewrite bind_return by reflexivity.
    erewrite bind_blocked; [reflexivity|].
    unfold asyncio.read. eapply lift_on_stream.
    + eapply stream_of_with_stream. rewrite stream_of_drawn.
      apply stream_of_opened.
    + reflexivity.
Qed.

(** ** Malformed responses *)

(** C6, counterexample. A response whose declared length is 8, fewer than
    10 bytes, is not refused: [_send_msg] returns an empty body and the
    type 1. *)
Lemma short_packet_is_accepted :
  struct.unpack_i (struct.le32 8) = inr 8
  /\ fst (_send_msg MessageType.COMMAND (literal "list") short_reply)
     = Return ([], 1)
  /\ fst (_send_msg MessageType.COMMAND (literal "list") short_reply)
     <> Raise (ValueError "Invalid data received from server.").
Proof.
  split; [reflexivity|]. split; [vm_compute; reflexivity|].
  vm_compute. discriminate.
Qed.

(** C6, amended. Whatever the request and however the bytes of the
    response were read: when the payload that [_send_msg] read does not end
    in the two NUL bytes, [_send_msg] raises [ValueError("Invalid data
    received from server.")], the specification's MalformedPacket. *)
Theorem unterminated_payload_is_refused
    type_ msg s s1 reader raw_len s2 in_len in_data s3 :
  transmit type_ msg s = (Return tt, s1) ->
  _reader (self s1) = Some reader ->
  lift (asyncio.read reader 4) s1 = (Return raw_len, s2) ->
  struct.unpack_i raw_len = inr in_len ->
  lift (asyncio.read reader in_len) s2 = (Return in_data, s3) ->
  endswith in_data [x00; x00] = false ->
  _send_msg type_ msg s
  = (Raise (ValueError "Invalid data received from server."), s3).
Proof.
  intros Ht Hr H4 Hlen Hdata Hend.
  rewrite _send_msg_split, (bind_return _ _ _ _ _ Ht).
  unfold receive.
  rewrite (bind_return _ _ _ _ _ (object_some _reader s1 reader Hr)).
  rewrite (bind_return _ _ _ _ _ H4).
  rewrite Hlen, (bind_return _ _ _ _ _ (of_result_inr _ _)).
  rewrite (bind_return _ _ _ _ _ Hdata).
  apply parse_unterminated, Hend.
Qed.

(** A payload of fewer than two bytes is among them. *)
Lemma tiny_payload_unterminated (in_data : bytes) :
  (length in_data < 2)%nat -> endswith in_data [x00; x00] = false.
Proof. intros H. apply endswith_short. simpl. lia. Qed.

(** ** The request on the wire *)

(** C10, counterexample. A [str] that UTF-8 cannot encode: with the lone
    surrogate U+D800 as message, [_send_msg] raises [UnicodeEncodeError]
    and writes nothing. *)
Lemma lone_surrogate_is_not_serialised :
  exists s',
    _send_msg MessageType.COMMAND [55296] (connected [] [])
    = (Raise UnicodeEncodeError, s')
    /\ asyncio.sent <$> stream_of s' 0 = Some [].
Proof. eexists. split; vm_compute; reflexivity. Qed.

(** C10, amended. For every message that has a UTF-8 encoding of at most
    2^31 - 11 bytes, NUL bytes and terminator sequences in it included, the
    send path of [_send_msg] ends normally, having written one request
    whose length prefix is the byte length of the body plus 10; the body
    goes out as it is. *)
Theorem request_length_prefix type_ msg body s h st :
  struct.in_range type_ = true ->
  utf8.encode msg = inr body ->
  Z.of_nat (length body) + 10 <= struct.INT_MAX ->
  _writer (self s) = Some h ->
  stream_of s h = Some st ->
  asyncio.closed st = false ->
  exists s1 st1,
    transmit type_ msg s = (Return tt, s1)
    /\ _send_msg type_ msg s = receive s1
    /\ stream_of s1 h = Some st1
    /\ asyncio.sent st1
       = asyncio.sent st
         ++ struct.le32 (Z.of_nat (length body) + 10)
         ++ struct.le32 (next_id s) ++ struct.le32 type_
         ++ body ++ [x00; x00]
    /\ struct.unpack_i (struct.le32 (Z.of_nat (length body) + 10))
       = inr (Z.of_nat (length body) + 10).
Proof.
  intros Ht Hb Hl Hw Hs Hc.
  pose proof (transmit_sends type_ msg body s h st Ht Hb Hl Hw Hs Hc) as E.
  eexists. eexists. split; [exact E|]. split; [|split; [|split]].
  - rewrite _send_msg_split, (bind_return _ _ _ _ _ E). reflexivity.
  - eapply stream_of_with_stream. rewrite stream_of_drawn. exact Hs.
  - reflexivity.
  - apply unpack_pack_i, in_range_spec. unfold struct.INT_MAX in Hl. lia.
Qed.

(** ** The theorems at work on the example sessions *)

(** [list_players_session] on [list_players]. *)
Lemma list_players_session_witness :
  exists s1 s2,
    connect default_timeout list_players = (Return tt, s1)
    /\ session s1 = Ready
    /\ send_cmd true (literal "list") default_timeout (bool_ true) s1
       = (Return (literal "There are 3 players online", 0), s2).
Proof.
  apply (list_players_session "localhost" 25575 (literal "hunter2")
           (list_byte_of_string "hunter2") (world list_players) []
           0 0 [] []).
  - reflexivity.
  - vm_compute. discriminate.
  - reflexivity.
  - reflexivity.
  - reflexivity.
  - vm_compute. discriminate.
  - reflexivity.
Defined.

(** C4 on [rejected_login]. *)
Lemma rejected_login_witness :
  exists s1,
    connect default_timeout rejected_login = (Raise IncorrectPasswordError, s1)
    /\ session s1 = Disconnected
    /\ (exists h st,
          _writer (self s1) = Some h /\ stream_of s1 h = Some st
          /\ asyncio.closed st = false)
    /\ forall re_bound cmd timeout' strip_colors,
         send_cmd re_bound cmd timeout' strip_colors s1
         = (Raise ClientNotConnectedError, s1).
Proof.
  apply (rejected_login_stays_disconnected default_timeout rejected_login
           [asyncio.feed_data (response MessageType.INVALID_AUTH 0 [])]
           [] [] (list_byte_of_string "hunter2") 0 []).
  - reflexivity.
  - reflexivity.
  - reflexivity.
  - reflexivity.
  - vm_compute. discriminate.
  - reflexivity.
  - vm_compute. discriminate.
Defined.

(** C5 on [silent_dial] and [silent_login]. *)
Lemma connect_timeout_witness :
  _ready (self silent_dial) = false
  /\ connect (Some 2%Qp) silent_dial
     = (Raise (RCONConnectionError
                 "A timeout occurred whilst attempting to connect to the server."
                 asyncio_TimeoutError),
        dialled [] silent_dial)
  /\ fst (connect (Some 2%Qp) silent_login) = Blocked.
Proof.
  split; [reflexivity|]. split.
  - apply (proj1 (connect_timeout_bounds_the_handshake
                    2%Qp silent_dial [] eq_refl)).
    reflexivity.
  - apply (proj2 (proj2 (connect_timeout_bounds_the_handshake
                           2%Qp silent_login [] eq_refl))
             (list_byte_of_string "hunter2")).
    + reflexivity.
    + reflexivity.
    + vm_compute. discriminate.
Defined.

(** C6 on [unterminated_reply]. *)
Lemma unterminated_payload_witness :
  endswith (struct.le32 0 ++ struct.le32 7 ++ list_byte_of_string "oops")
           [x00; x00] = false
  /\ fst (_send_msg MessageType.COMMAND (literal "list") unterminated_reply)
     = Raise (ValueError "Invalid data received from server.").
Proof.
  split; [vm_compute; reflexivity|].
  erewrite (unterminated_payload_is_refused
              MessageType.COMMAND (literal "list") unterminated_reply
              _ 0%nat (struct.le32 12) _ 12
              (struct.le32 0 ++ struct.le32 7 ++ list_byte_of_string "oops")).
  - reflexivity.
  - vm_compute. reflexivity.
  - reflexivity.
  - vm_compute. reflexivity.
  - reflexivity.
  - vm_compute. reflexivity.
  - vm_compute. reflexivity.
Defined.


(** C9 on [coloured_reply], with the integer 1 for [strip_colors]: the
    colour code stays in the body. *)
Lemma strip_colors_witness :
  truth (int_ 1) = true
  /\ send_cmd true (literal "list") default_timeout (int_ 1) coloured_reply
     = asyncio.wait_for (_send_msg MessageType.COMMAND (literal "list"))
         default_timeout coloured_reply
  /\ fst (send_cmd true (literal "list") default_timeout (int_ 1)
            coloured_reply)
     = Return ([167; 97; 72; 101; 108; 108; 111], 0).
Proof.
  split; [reflexivity|].
  pose proof (proj1 (strip_colors_only_when_True true (literal "list")
                       default_timeout coloured_reply eq_refl)
                (int_ 1) ltac:(discriminate)) as E.
  split; [exact E|]. rewrite E. vm_compute. reflexivity.
Defined.

(** C10 on a message with two NUL characters in it. *)
Lemma request_length_prefix_witness :
  exists s1 st1,
    transmit MessageType.COMMAND [97; 0; 0; 98] (connected [] [])
    = (Return tt, s1)
    /\ _send_msg MessageType.COMMAND [97; 0; 0; 98] (connected [] [])
       = receive s1
    /\ stream_of s1 0 = Some st1
    /\ asyncio.sent st1
       = [] ++ struct.le32 14 ++ struct.le32 0
         ++ struct.le32 MessageType.COMMAND
         ++ ["a"; x00; x00; "b"]%byte ++ [x00; x00]
    /\ struct.unpack_i (struct.le32 14) = inr 14.
Proof.
  apply (request_length_prefix MessageType.COMMAND [97; 0; 0; 98]
           ["a"; x00; x00; "b"]%byte (connected [] []) 0%nat
           (asyncio.fresh [])).
  - reflexivity.
  - reflexivity.
  - vm_compute. discriminate.
  - reflexivity.
  - reflexivity.
  - reflexivity.
Defined.

(** * Further properties *)

(** ** What the coroutines leave alone, stream by stream *)

Section each.

Variable P : asyncio.Stream -> asyncio.Stream -> Prop.
Hypothesis P_refl : forall st, P st st.
Hypothesis P_trans : forall a b c, P a b -> P b c -> P a c.

Lemma each_refl s : each P s s.
Proof. split; [reflexivity | eauto]. Qed.

Lemma each_trans s1 s2 s3 : each P s1 s2 -> each P s2 s3 -> each P s1 s3.
Proof.
  intros [E1 H1] [E2 H2]. split; [congruence|].
  intros h st Hs. destruct (H1 h st Hs) as (st2 & Hs2 & P12).
  destruct (H2 h st2 Hs2) as (st3 & Hs3 & P23). eauto.
Qed.

(** A state with the same client and the same streams. *)
Lemma each_same_streams s s' :
  self s' = self s ->
  asyncio.streams (world s') = asyncio.streams (world s) ->
  each P s s'.
Proof.
  intros Hself Hstreams. split; [exact Hself|].
  intros h st Hs. exists st. split; [|apply P_refl].
  unfold stream_of in *. rewrite Hstreams. exact Hs.
Qed.

Lemma each_on_stream {A} h (f : asyncio.Stream -> outcome A * asyncio.Stream) :
  (forall st r st', f st = (r, st') -> P st st') ->
  stable (each P) (lift (asyncio.on_stream h f)).
Proof.
  intros Hf s r s'. unfold lift, asyncio.on_stream.
  destruct (asyncio.streams (world s) !! h) as [st|] eqn:Hh.
  - destruct (f st) as [r' st'] eqn:Ef. intros [= _ <-].
    split; [reflexivity|]. intros h' st0 Hs. unfold stream_of in *. simpl.
    destruct (decide (h = h')) as [<-|Hne].
    + exists st'. split.
      * apply list_lookup_insert_eq. eapply lookup_lt_Some, Hh.
      * rewrite Hh in Hs. injection Hs as <-. eapply Hf, Ef.
    + exists st0. split; [|apply P_refl].
      rewrite list_lookup_insert_ne by exact Hne. exact Hs.
  - intros [= _ <-]. apply each_same_streams; reflexivity.
Qed.


Lemma each_randint a b : stable (each P) (randint a b).
Proof.
  intros s r s'. unfold randint, lift.
  destruct (random.randint a b (asyncio.entropy (world s))).
  intros [= _ <-]. apply each_same_streams; reflexivity.
Qed.

Lemma each_parse in_data : stable (each P) (parse in_data).
Proof.
  unfold parse. destruct (negb (endswith in_data [x00; x00])).
  - apply stable_raise, each_refl.
  - apply stable_bind;
      [apply each_trans | apply stable_of_result, each_refl |].
    intros [in_type in_req_id].
    destruct (in_type =? MessageType.INVALID_AUTH).
    + apply stable_raise, each_refl.
    + apply stable_bind;
        [apply each_trans | apply stable_of_result, each_refl |].
      intros ?. apply stable_ret, each_refl.
Qed.

End each.

Lemma same_transport_refl st : same_transport st st.
Proof. reflexivity. Qed.

Lemma same_transport_trans a b c :
  same_transport a b -> same_transport b c -> same_transport a c.
Proof. unfold same_transport. congruence. Qed.

Lemma same_output_refl st : same_output st st.
Proof. split; reflexivity. Qed.

Lemma same_output_trans a b c :
  same_output a b -> same_output b c -> same_output a c.
Proof. unfold same_output. intros [] []. split; congruence. Qed.

(** Reading writes nothing and closes nothing. *)
Lemma read_buffer_output n st r st' :
  asyncio.read_buffer n st = (r, st') -> same_output st st'.
Proof.
  unfold asyncio.read_buffer.
  destruct (n =? 0); [intros [= _ <-]; apply same_output_refl|].
  destruct (n <? 0).
  - destruct (asyncio.eof st); [intros [= _ <-]; split; reflexivity|].
    destruct (asyncio.until_eof (asyncio.incoming st)) as [[d rest]|];
      intros [= _ <-]; split; reflexivity.
  - destruct (asyncio.buffer st) as [|b buf], (asyncio.eof st);
      try (intros [= _ <-]; split; reflexivity).
    destruct (asyncio.wait_for_data (asyncio.incoming st)) as [[[d e] rest]|];
      intros [= _ <-]; split; reflexivity.
Qed.

Lemma read_stream_output n st r st' :
  asyncio.read_stream n st = (r, st') -> same_output st st'.
Proof.
  unfold asyncio.read_stream.
  destruct (asyncio.link st) eqn:El;
    try (intros H; apply read_buffer_output in H; exact H).
  - intros [= _ <-]. apply same_output_refl.
  - intros H. apply read_buffer_output in H. destruct H as [Hsent Hc].
    split; [exact Hsent|]. rewrite Hc. unfold asyncio.closed. simpl.
    rewrite El. reflexivity.
Qed.

(** The receive path writes nothing and closes nothing. *)
Lemma receive_output : stable (each same_output) receive.
Proof.
  unfold receive, asyncio.read.
  apply stable_bind;
    [apply each_trans, same_output_trans
    | apply stable_object, each_refl, same_output_refl |].
  intros reader. apply stable_bind;
    [apply each_trans, same_output_trans
    | apply each_on_stream;
        [apply same_output_refl | intros ? ? ?; apply read_stream_output] |].
  intros raw_len. apply stable_bind;
    [apply each_trans, same_output_trans
    | apply stable_of_result, each_refl, same_output_refl |].
  intros in_len. apply stable_bind;
    [apply each_trans, same_output_trans
    | apply each_on_stream;
        [apply same_output_refl | intros ? ? ?; apply read_stream_output] |].
  intros in_data. apply each_parse;
    [apply same_output_refl | apply same_output_trans].
Qed.

Lemma each_weaken (P Q : asyncio.Stream -> asyncio.Stream -> Prop) s s' :
  (forall a b, P a b -> Q a b) -> each P s s' -> each Q s s'.
Proof.
  intros HPQ [Hself H]. split; [exact Hself|].
  intros h st Hs. destruct (H h st Hs) as (st' & Hs' & HP). eauto.
Qed.

(** The send path closes nothing. *)
Lemma transmit_transport type_ msg :
  stable (each same_transport) (transmit type_ msg).
Proof.
  unfold transmit, asyncio.write, asyncio.drain.
  repeat first
    [ apply stable_of_result, each_refl, same_transport_refl
    | apply stable_object, each_refl, same_transport_refl
    | apply each_randint, same_transport_refl
    | apply each_on_stream; [apply same_transport_refl|]
    | apply stable_bind; [apply each_trans, same_transport_trans | | intros ?] ].
  - intros st r st' [= _ <-]. unfold same_transport, asyncio.closed.
    destruct (asyncio.link st) eqn:E; simpl; rewrite ?E; reflexivity.
  - intros st r st'. unfold same_transport, asyncio.closed.
    destruct (asyncio.link st) eqn:E; intros [= _ <-]; simpl; rewrite ?E;
      reflexivity.
Qed.

(** No round trip closes a transport or changes the client object. *)
Lemma _send_msg_transport type_ msg :
  stable (each same_transport) (_send_msg type_ msg).
Proof.
  intros s r s' H. rewrite _send_msg_split in H. revert s r s' H.
  apply stable_bind;
    [apply each_trans, same_transport_trans | apply transmit_transport |].
  intros _ s r s' H. eapply each_weaken; [|eapply receive_output, H].
  intros a b [_ Hc]. exact Hc.
Qed.

(** ** The round trip, from a client attached to a stream *)

Lemma _send_msg_after_transmit type_ msg s s1 :
  transmit type_ msg s = (Return tt, s1) -> _send_msg type_ msg s = receive s1.
Proof.
  intros H. rewrite _send_msg_split, (bind_return _ _ _ _ _ H). reflexivity.
Qed.

Lemma _send_msg_attached type_ msg body s h st :
  struct.in_range type_ = true ->
  utf8.encode msg = inr body ->
  Z.of_nat (length body) + 10 <= struct.INT_MAX ->
  attached s h st ->
  _send_msg type_ msg s
  = receive (with_stream h (wrote (request (next_id s) type_ body) st)
                         (drawn s)).
Proof.
  intros Ht Hb Hl (_ & Hw & Hs & Hc).
  apply _send_msg_after_transmit, transmit_sends; assumption.
Qed.

(** The first read of the receive path, on a reader with nothing buffered
    and a connection that is up. *)
Lemma receive_waits s h st :
  _reader (self s) = Some h -> stream_of s h = Some st -> drained st ->
  asyncio.closed st = false ->
  receive s =
    match asyncio.wait_for_data (asyncio.incoming st) with
    | None => (Blocked, s)
    | Some (d, e, rest) =>
        (let* in_len := of_result (struct.unpack_i (take 4 d)) in
         let* in_data := lift (asyncio.read h in_len) in
         parse in_data)
          (with_stream h (reading (drop 4 d) e rest st) s)
    end.
Proof.
  intros Hr Hs [Hb He] Hc. unfold receive.
  rewrite (bind_return _ _ _ _ _ (object_some _reader s h Hr)).
  unfold asyncio.read at 1.
  destruct (asyncio.wait_for_data (asyncio.incoming st))
    as [[[d e] rest]|] eqn:Ew.
  - erewrite bind_return; [reflexivity|].
    eapply lift_on_stream; [exact Hs|].
    rewrite read_stream_up by exact Hc.
    unfold asyncio.read_buffer. simpl. rewrite Hb, He, Ew. reflexivity.
  - erewrite bind_blocked; [reflexivity|].
    rewrite <- (with_stream_same h st s Hs) at 2.
    eapply lift_on_stream; [exact Hs|].
    rewrite read_stream_up by exact Hc.
    unfold asyncio.read_buffer. simpl. rewrite Hb, He, Ew. reflexivity.
Qed.

(** The outcome of [send_cmd] on a ready client, from the outcome of the
    round trip. *)
Lemma send_cmd_outcome re_bound cmd timeout strip_colors s :
  _ready (self s) = true ->
  send_cmd re_bound cmd timeout strip_colors s =
    match asyncio.wait_for (_send_msg MessageType.COMMAND cmd) timeout s with
    | (Return value, s') =>
        if isinstance_bool strip_colors && truth strip_colors
        then if re_bound
             then (Return (re.sub_section_any (fst value), snd value), s')
             else (Raise (NameError "re"), s')
        else (Return value, s')
    | (Raise e, s') => (Raise e, s')
    | (Blocked, s') => (Blocked, s')
    end.
Proof.
  intros Hr. unfold send_cmd.
  rewrite (bind_return _ _ s true s)
    by (unfold getattr; rewrite Hr; reflexivity).
  change (negb true) with false. cbv iota. unfold bind.
  destruct (asyncio.wait_for (_send_msg MessageType.COMMAND cmd) timeout s)
    as [[value|e|] s']; try reflexivity.
  destruct (isinstance_bool strip_colors && truth strip_colors);
    [destruct re_bound|]; reflexivity.
Qed.

Lemma wait_for_state {S A} (m : M S A) timeout (s : S) :
  snd (asyncio.wait_for m timeout s) = snd (m s).
Proof.
  unfold asyncio.wait_for. destruct (m s) as [[a|e|] s'], timeout; reflexivity.
Qed.

(** Whatever its outcome, [send_cmd] on a ready client leaves the state in
    which its round trip ended. *)
Lemma send_cmd_state re_bound cmd timeout strip_colors s :
  _ready (self s) = true ->
  snd (send_cmd re_bound cmd timeout strip_colors s)
  = snd (_send_msg MessageType.COMMAND cmd s).
Proof.
  intros Hr. rewrite (send_cmd_outcome _ _ _ _ _ Hr).
  rewrite <- (wait_for_state (_send_msg MessageType.COMMAND cmd) timeout s).
  destruct (asyncio.wait_for (_send_msg MessageType.COMMAND cmd) timeout s)
    as [[value|e|] s']; try reflexivity.
  destruct (isinstance_bool strip_colors && truth strip_colors);
    [destruct re_bound|]; reflexivity.
Qed.

Lemma send_cmd_keeps re_bound cmd timeout strip_colors :
  stable keeps (send_cmd re_bound cmd timeout strip_colors).
Proof.
  unfold send_cmd. apply stable_bind;
    [apply keeps_trans | apply stable_getattr, keeps_refl |].
  intros ready. destruct (negb ready); [apply stable_raise, keeps_refl|].
  apply stable_bind; [apply keeps_trans | |].
  - apply stable_wait_for, keeps__send_msg.
  - intros value.
    destruct (isinstance_bool strip_colors && truth strip_colors);
      [destruct re_bound|];
      first [apply stable_ret, keeps_refl | apply stable_raise, keeps_refl].
Qed.

(** ** send_cmd *)

(** X4. On a ready client attached to a stream whose connection is up,
    [send_cmd], with a positive timeout or none, writes exactly one
    request, whatever comes back and however the call ends: the length, a
    request id between 0 and 2147483647, the type COMMAND, the UTF-8 bytes
    of the command and the two NUL bytes. *)
Theorem send_cmd_writes_one_request
    re_bound cmd body timeout strip_colors s h st :
  _ready (self s) = true ->
  attached s h st ->
  utf8.encode cmd = inr body ->
  Z.of_nat (length body) + 10 <= struct.INT_MAX ->
  exists st',
    stream_of (snd (send_cmd re_bound cmd timeout strip_colors s)) h = Some st'
    /\ asyncio.sent st'
       = asyncio.sent st ++ request (next_id s) MessageType.COMMAND body
    /\ 0 <= next_id s <= 2147483647.
Proof.
  intros Hr Ha Hb Hl. rewrite (send_cmd_state _ _ _ _ _ Hr).
  rewrite (_send_msg_attached MessageType.COMMAND cmd body s h st
             eq_refl Hb Hl Ha).
  destruct Ha as (_ & _ & Hs & _).
  destruct (receive _) as [r s2] eqn:E.
  destruct (receive_output _ _ _ E) as [_ H].
  destruct (H h (wrote (request (next_id s) MessageType.COMMAND body) st))
    as (st' & Hs' & Hsent & _).
  { eapply stream_of_with_stream. rewrite stream_of_drawn. exact Hs. }
  exists st'. split; [exact Hs'|]. split; [exact Hsent|].
  pose proof (next_id_range s) as Hn%in_range_spec.
  unfold next_id, random.randint in *.
  destruct (asyncio.entropy (world s)) as [|x rest]; cbn [fst] in *; [lia|].
  change (2147483647 - 0 + 1) with 2147483648.
  pose proof (Z.mod_pos_bound x 2147483648 eq_refl). lia.
Qed.

(** X5. However it ends (a result, an exception, a wait without end),
    [send_cmd] leaves the client object as it was: [_ready], [_reader] and
    [_writer] are never touched, so a failed command leaves a ready client
    ready. *)
Theorem send_cmd_leaves_client re_bound cmd timeout strip_colors s :
  self (snd (send_cmd re_bound cmd timeout strip_colors s)) = self s
  /\ session (snd (send_cmd re_bound cmd timeout strip_colors s)) = session s.
Proof.
  destruct (send_cmd re_bound cmd timeout strip_colors s) as [r s'] eqn:E.
  destruct (send_cmd_keeps _ _ _ _ _ _ _ E) as [Hself _]. simpl.
  split; [exact Hself|]. unfold session. rewrite Hself. reflexivity.
Qed.

Lemma next_id_bounds s : 0 <= next_id s <= 2147483647.
Proof.
  unfold next_id, random.randint.
  destruct (asyncio.entropy (world s)) as [|x rest]; cbn [fst]; [lia|].
  change (2147483647 - 0 + 1) with 2147483648.
  pose proof (Z.mod_pos_bound x 2147483648 eq_refl). lia.
Qed.

(** [_send_msg] when the answer is one whole response, in one piece. *)
Lemma _send_msg_answer type_ msg body s h st rtype rid rbody evs :
  struct.in_range type_ = true ->
  utf8.encode msg = inr body ->
  Z.of_nat (length body) + 10 <= struct.INT_MAX ->
  attached s h st -> drained st ->
  asyncio.incoming st = asyncio.feed_data (response rtype rid rbody) :: evs ->
  Z.of_nat (length rbody) + 10 <= struct.INT_MAX ->
  _send_msg type_ msg s
  = parse (payload rtype rid rbody)
      (with_stream h
         (reading [] false evs (wrote (request (next_id s) type_ body) st))
         (drawn s)).
Proof.
  intros Ht Hb Hl (Hr & Hw & Hs & Hc) [Hbuf He] Hi Hrl.
  apply (_send_msg_whole type_ msg body s h st (payload rtype rid rbody) evs);
    try assumption.
  apply in_range_length_payload, Hrl.
Qed.

Lemma push_inl c r e : utf8.push c r = inl e -> r = inl e.
Proof. destruct r; [intros [= <-]; reflexivity | discriminate]. Qed.

(** The decoder fails with [UnicodeDecodeError] and nothing else. *)
Lemma decode_error (b : bytes) (e : exn) :
  utf8.decode b = inl e -> e = UnicodeDecodeError.
Proof.
  remember (length b) as n eqn:Hn. revert b Hn.
  induction n as [n IH] using lt_wf_ind. intros b Hn H.
  destruct b as [|b0 t0]; [discriminate|].
  rewrite decode_cons in H. cbv zeta in H.
  repeat match type of H with
         | (if ?c then _ else _) = _ => destruct c
         | match ?l with [] => _ | _ :: _ => _ end = _ => destruct l
         end;
    try (injection H as <-; reflexivity);
    apply push_inl in H;
    (eapply IH; [| reflexivity | exact H]); subst n; simpl; lia.
Qed.

(** A response of a type other than -1 whose body is not UTF-8. *)
Lemma parse_undecodable {S} rtype rid rbody e (s : S) :
  struct.in_range rtype = true -> struct.in_range rid = true ->
  rtype <> MessageType.INVALID_AUTH ->
  utf8.decode rbody = inl e ->
  parse (payload rtype rid rbody) s = (Raise UnicodeDecodeError, s).
Proof.
  intros Ht Hi Hn Hd. unfold parse.
  rewrite payload_terminated, payload_header, payload_body.
  change (negb true) with false. cbv iota.
  rewrite unpack_pack_ii by assumption.
  rewrite (bind_return _ _ _ _ _ (of_result_inr _ _)).
  replace (rtype =? MessageType.INVALID_AUTH) with false by lia.
  rewrite Hd, (decode_error _ _ Hd). reflexivity.
Qed.

(** X6. A response whose body is not valid UTF-8 (and whose type is not
    -1) makes [send_cmd] raise [UnicodeDecodeError], after the command has
    been written; the client stays Ready. *)
Theorem undecodable_body_raises
    re_bound cmd body timeout strip_colors s h st rtype rid rbody e evs :
  _ready (self s) = true ->
  attached s h st -> drained st ->
  utf8.encode cmd = inr body ->
  Z.of_nat (length body) + 10 <= struct.INT_MAX ->
  asyncio.incoming st = asyncio.feed_data (response rtype rid rbody) :: evs ->
  Z.of_nat (length rbody) + 10 <= struct.INT_MAX ->
  struct.in_range rtype = true -> struct.in_range rid = true ->
  rtype <> MessageType.INVALID_AUTH ->
  utf8.decode rbody = inl e ->
  exists s',
    send_cmd re_bound cmd timeout strip_colors s = (Raise UnicodeDecodeError, s')
    /\ session s' = Ready.
Proof.
  intros Hr Ha Hdr Hb Hl Hi Hrl Ht Hid Hn Hd.
  rewrite (send_cmd_outcome _ _ _ _ _ Hr). unfold asyncio.wait_for.
  rewrite (_send_msg_answer MessageType.COMMAND cmd body s h st rtype rid
             rbody evs eq_refl Hb Hl Ha Hdr Hi Hrl).
  rewrite (parse_undecodable rtype rid rbody e _ Ht Hid Hn Hd).
  eexists. split; [destruct timeout; reflexivity|].
  unfold session. simpl. rewrite Hr. reflexivity.
Qed.

(** X9. A response of type -1 to a command makes [send_cmd] raise
    [IncorrectPasswordError], whatever its body (the body is not even
    decoded); the client stays Ready. *)
Theorem command_answered_invalid_auth
    re_bound cmd body timeout strip_colors s h st rid rbody evs :
  _ready (self s) = true ->
  attached s h st -> drained st ->
  utf8.encode cmd = inr body ->
  Z.of_nat (length body) + 10 <= struct.INT_MAX ->
  asyncio.incoming st
  = asyncio.feed_data (response MessageType.INVALID_AUTH rid rbody) :: evs ->
  Z.of_nat (length rbody) + 10 <= struct.INT_MAX ->
  struct.in_range rid = true ->
  exists s',
    send_cmd re_bound cmd timeout strip_colors s
    = (Raise IncorrectPasswordError, s')
    /\ session s' = Ready.
Proof.
  intros Hr Ha Hdr Hb Hl Hi Hrl Hid.
  rewrite (send_cmd_outcome _ _ _ _ _ Hr). unfold asyncio.wait_for.
  rewrite (_send_msg_answer MessageType.COMMAND cmd body s h st
             MessageType.INVALID_AUTH rid rbody evs eq_refl Hb Hl Ha Hdr Hi Hrl).
  rewrite (parse_invalid_auth rid rbody _ Hid).
  eexists. split; [destruct timeout; reflexivity|].
  unfold session. simpl. rewrite Hr. reflexivity.
Qed.

(** X7. When the server closes the connection without answering, the
    first read returns no byte and [send_cmd] raises [struct.error]; the
    client stays Ready. *)
Theorem hang_up_raises_struct_error
    re_bound cmd body timeout strip_colors s h st evs :
  _ready (self s) = true ->
  attached s h st -> drained st ->
  utf8.encode cmd = inr body ->
  Z.of_nat (length body) + 10 <= struct.INT_MAX ->
  asyncio.incoming st = asyncio.feed_eof :: evs ->
  exists s',
    send_cmd re_bound cmd timeout strip_colors s = (Raise struct_error, s')
    /\ session s' = Ready.
Proof.
  intros Hr Ha Hdr Hb Hl Hi.
  rewrite (send_cmd_outcome _ _ _ _ _ Hr). unfold asyncio.wait_for.
  rewrite (_send_msg_attached MessageType.COMMAND cmd body s h st
             eq_refl Hb Hl Ha).
  destruct Ha as (Hrd & _ & Hs & Hc).
  erewrite (receive_waits _ h (wrote _ st)); cycle 1.
  - exact Hrd.
  - eapply stream_of_with_stream. rewrite stream_of_drawn. exact Hs.
  - exact Hdr.
  - exact Hc.
  - simpl asyncio.incoming. rewrite Hi. simpl.
    eexists. split; [destruct timeout; reflexivity|].
    unfold session. simpl. rewrite Hr. reflexivity.
Qed.

(** X8. When the server never answers, [send_cmd] with a timeout raises
    [asyncio.TimeoutError] as it is (not wrapped), the command having been
    written, and the client stays Ready; without a timeout it waits. *)
Theorem unanswered_command_times_out
    re_bound cmd body strip_colors s h st :
  _ready (self s) = true ->
  attached s h st -> drained st ->
  utf8.encode cmd = inr body ->
  Z.of_nat (length body) + 10 <= struct.INT_MAX ->
  asyncio.incoming st = [] ->
  (forall t, exists s',
     send_cmd re_bound cmd (Some t) strip_colors s
     = (Raise asyncio_TimeoutError, s')
     /\ session s' = Ready
     /\ asyncio.sent <$> stream_of s' h
        = Some (asyncio.sent st
                ++ request (next_id s) MessageType.COMMAND body))
  /\ fst (send_cmd re_bound cmd None strip_colors s) = Blocked.
Proof.
  intros Hr Ha Hdr Hb Hl Hi.
  assert (E : _send_msg MessageType.COMMAND cmd s
              = (Blocked,
                 with_stream h
                   (wrote (request (next_id s) MessageType.COMMAND body) st)
                   (drawn s))).
  { rewrite (_send_msg_attached MessageType.COMMAND cmd body s h st
               eq_refl Hb Hl Ha).
    destruct Ha as (Hrd & _ & Hs & Hc).
    erewrite (receive_waits _ h (wrote _ st)); cycle 1.
    - exact Hrd.
    - eapply stream_of_with_stream. rewrite stream_of_drawn. exact Hs.
    - exact Hdr.
    - exact Hc.
    - simpl asyncio.incoming. rewrite Hi. reflexivity. }
  split.
  - intros t. rewrite (send_cmd_outcome _ _ _ _ _ Hr). unfold asyncio.wait_for.
    rewrite E. eexists. split; [reflexivity|]. split.
    + unfold session. simpl. rewrite Hr. reflexivity.
    + destruct Ha as (_ & _ & Hs & _).
      erewrite stream_of_with_stream; [reflexivity|].
      rewrite stream_of_drawn. exact Hs.
  - rewrite (send_cmd_outcome _ _ _ _ _ Hr). unfold asyncio.wait_for.
    rewrite E. reflexivity.
Qed.

(** ** Colour codes *)

Lemma sub_section_any_cons2 c d rest :
  re.sub_section_any (c :: d :: rest) =
    if (c =? 167) && negb (d =? 10)
    then re.sub_section_any rest
    else c :: re.sub_section_any (d :: rest).
Proof. reflexivity. Qed.

(** A text without the section sign goes through the stripping as it is. *)
Lemma sub_section_any_plain (s : str) :
  Forall (fun c => c <> 167) s -> re.sub_section_any s = s.
Proof.
  induction 1 as [|c s Hc Hs IH]; [reflexivity|].
  destruct s as [|d rest]; [reflexivity|].
  rewrite sub_section_any_cons2.
  replace (c =? 167) with false by lia. simpl andb. cbv iota.
  rewrite IH. reflexivity.
Qed.

(** X10. When the body of the response holds no section sign, [send_cmd]
    returns with [strip_colors=True] exactly what it returns with
    [strip_colors=False]: the stripping shows only on colour codes. *)
Theorem stripping_leaves_plain_text cmd timeout s body type_ s' :
  send_cmd true cmd timeout (bool_ false) s = (Return (body, type_), s') ->
  Forall (fun c => c <> 167) body ->
  send_cmd true cmd timeout (bool_ true) s = (Return (body, type_), s').
Proof.
  intros H Hplain. destruct (_ready (self s)) eqn:Hr.
  - rewrite (send_cmd_outcome _ _ _ _ _ Hr) in H.
    rewrite (send_cmd_outcome _ _ _ _ _ Hr).
    destruct (asyncio.wait_for (_send_msg MessageType.COMMAND cmd) timeout s)
      as [[value|e|] s1]; try discriminate.
    cbn [isinstance_bool truth andb] in *.
    injection H as Hv Hs. subst value s1. cbn [fst snd].
    rewrite (sub_section_any_plain body Hplain). reflexivity.
  - rewrite (send_cmd_not_ready _ _ _ _ _ Hr) in H. discriminate.
Qed.

Lemma sub_section_any_stable_both (s : str) :
  re.sub_section_any (re.sub_section_any s) = re.sub_section_any s
  /\ forall c,
       re.sub_section_any (re.sub_section_any (c :: s))
       = re.sub_section_any (c :: s).
Proof.
  induction s as [|d rest [IH1 IH2]]; [split; reflexivity|].
  split; [apply IH2|]. intros c. rewrite sub_section_any_cons2.
  destruct ((c =? 167) && negb (d =? 10)) eqn:Ec; [exact IH1|].
  pose proof (IH2 d) as Hd.
  destruct (re.sub_section_any (d :: rest)) as [|e t] eqn:Et; [reflexivity|].
  rewrite sub_section_any_cons2.
  replace ((c =? 167) && negb (e =? 10)) with false; [rewrite Hd; reflexivity|].
  symmetry. destruct (Z.eqb_spec c 167) as [_|]; [|reflexivity].
  simpl in Ec. apply negb_false_iff in Ec. apply Z.eqb_eq in Ec. subst d.
  destruct rest as [|d' rest']; [injection Et as <- _; reflexivity|].
  rewrite sub_section_any_cons2 in Et. simpl in Et.
  injection Et as <- _. reflexivity.
Qed.

(** X11. The stripping of [send_cmd] leaves no colour code behind:
    stripping its result again changes nothing; and it never makes the
    text longer. *)
Theorem stripping_is_idempotent (s : str) :
  re.sub_section_any (re.sub_section_any s) = re.sub_section_any s
  /\ (length (re.sub_section_any s) <= length s)%nat.
Proof.
  split; [apply sub_section_any_stable_both|].
  assert (H : (length (re.sub_section_any s) <= length s)%nat
              /\ forall c, (length (re.sub_section_any (c :: s))
                            <= S (length s))%nat).
  { induction s as [|d rest [IH1 IH2]]; [split; simpl; intros; lia|].
    split; [apply IH2|]. intros c. rewrite sub_section_any_cons2.
    destruct ((c =? 167) && negb (d =? 10)).
    - simpl. lia.
    - specialize (IH2 d). simpl in *. lia. }
  apply H.
Qed.

(** ** connect *)

(** When nobody accepts, [connect] does not return. *)
Lemma connect_not_accepted_fails timeout s d ds s1 :
  _ready (self s) = false ->
  asyncio.dials (world s) = d :: ds ->
  (forall peer, d <> asyncio.accept peer) ->
  connect timeout s <> (Return tt, s1).
Proof.
  intros Hr Hd Hna. enter_connect Hr.
  unfold bind at 1, try_except, asyncio.wait_for, lift,
    asyncio.open_connection.
  rewrite Hd. destruct d as [peer| | | |]; [destruct (Hna peer eq_refl)|..];
    destruct timeout; discriminate.
Qed.

(** X1. A [connect] that returns leaves the client Ready, and a second
    [connect], whatever its timeout, then returns at once and changes
    nothing: no new connection, no second login. *)
Theorem connect_twice timeout timeout' s s1 :
  connect timeout s = (Return tt, s1) ->
  session s1 = Ready /\ connect timeout' s1 = (Return tt, s1).
Proof.
  intros H.
  assert (Hr1 : _ready (self s1) = true).
  { destruct (_ready (self s)) eqn:Hr.
    - rewrite (connect_ready timeout s Hr) in H. injection H as <-. exact Hr.
    - destruct (asyncio.dials (world s)) as [|d ds] eqn:Hd.
      { destruct (connect_nobody timeout s Hr Hd) as (e & E).
        rewrite E in H. discriminate. }
      destruct d as [peer| | | |];
        try (exfalso;
             apply (connect_not_accepted_fails timeout s _ ds s1 Hr Hd);
             [discriminate | exact H]).
      rewrite (connect_accepted timeout s peer ds Hr Hd) in H.
      destruct (_send_msg _ _ _) as [[a|e|] s2]; try discriminate.
      injection H as <-. reflexivity. }
  split; [unfold session; rewrite Hr1; reflexivity|].
  apply connect_ready, Hr1.
Qed.

(** X2. A connection that is refused makes [connect] raise
    [RCONConnectionError] with the message "The remote server refused the
    connection."; any other failure to connect, with "The connection failed
    for an unknown reason."; each time the original exception is attached,
    no stream has been opened and the client object is as it was. *)
Theorem connect_wraps_failures timeout s ds :
  _ready (self s) = false ->
  (asyncio.dials (world s) = asyncio.refuse :: ds ->
   connect timeout s
   = (Raise (RCONConnectionError "The remote server refused the connection."
               ConnectionRefusedError),
      dialled ds s))
  /\ (asyncio.dials (world s) = asyncio.unreachable :: ds ->
      connect timeout s
      = (Raise (RCONConnectionError
                  "The connection failed for an unknown reason." OSError),
         dialled ds s)).
Proof.
  intros Hr. split; intros Hd; enter_connect Hr;
    unfold bind at 1, try_except, asyncio.wait_for, lift,
      asyncio.open_connection;
    rewrite Hd; destruct timeout; reflexivity.
Qed.



(** The encoder fails with [UnicodeEncodeError] and nothing else. *)
Lemma encode_error (s : str) (e : exn) :
  utf8.encode s = inl e -> e = UnicodeEncodeError.
Proof.
  induction s as [|c s IH]; simpl; [discriminate|].
  destruct (utf8.encode_char c) as [e'|b] eqn:Ec.
  - intros [= <-]. unfold utf8.encode_char in Ec.
    repeat match type of Ec with
           | (if ?x then _ else _) = _ => destruct x
           end; congruence.
  - destruct (utf8.encode s) as [e'|r]; [|discriminate].
    intros [= <-]. apply IH. reflexivity.
Qed.

(** A message that has no encoding stops [_send_msg] before anything is
    written. *)
Lemma _send_msg_unencodable type_ msg e s :
  struct.in_range type_ = true ->
  utf8.encode msg = inl e ->
  _send_msg type_ msg s = (Raise UnicodeEncodeError, drawn s).
Proof.
  intros Ht He. unfold _send_msg.
  rewrite (bind_return _ _ _ _ _ (randint_draws s)).
  unfold struct.pack_ii. rewrite next_id_range, Ht. simpl andb. cbv iota.
  rewrite (bind_return _ _ _ _ _ (of_result_inr _ _)).
  rewrite He, (encode_error _ _ He). reflexivity.
Qed.

(** X17. When the password has no UTF-8 encoding (a lone surrogate in
    it), [connect] opens the connection, writes nothing on it, raises
    [UnicodeEncodeError] and leaves the client Disconnected, the transport
    open. *)
Theorem unencodable_password timeout s peer ds e :
  _ready (self s) = false ->
  asyncio.dials (world s) = asyncio.accept peer :: ds ->
  utf8.encode (password (self s)) = inl e ->
  exists s1 st,
    connect timeout s = (Raise UnicodeEncodeError, s1)
    /\ session s1 = Disconnected
    /\ stream_of s1 (length (asyncio.streams (world s))) = Some st
    /\ asyncio.sent st = [] /\ asyncio.closed st = false.
Proof.
  intros Hr Hd He.
  rewrite (connect_accepted timeout s peer ds Hr Hd).
  rewrite (_send_msg_unencodable MessageType.LOGIN _ e _ eq_refl He).
  eexists. eexists. split; [reflexivity|]. split.
  - unfold session. simpl. rewrite Hr. reflexivity.
  - split; [rewrite stream_of_drawn; apply stream_of_opened|].
    split; reflexivity.
Qed.

(** X20. The login succeeds on any response whose type is not -1, the
    type COMMAND or an unknown one included, provided the body decodes:
    [connect] returns, the client is Ready and attached to the open
    stream, from which the response has been consumed whole. *)
Theorem login_succeeds_unless_invalid_auth
    timeout s peer ds pwb rtype rid rbody rmsg evs :
  _ready (self s) = false ->
  asyncio.dials (world s) = asyncio.accept peer :: ds ->
  peer = asyncio.feed_data (response rtype rid rbody) :: evs ->
  utf8.encode (password (self s)) = inr pwb ->
  Z.of_nat (length pwb) + 10 <= struct.INT_MAX ->
  struct.in_range rtype = true -> struct.in_range rid = true ->
  rtype <> MessageType.INVALID_AUTH ->
  utf8.decode rbody = inr rmsg ->
  Z.of_nat (length rbody) + 10 <= struct.INT_MAX ->
  exists s1 st,
    connect timeout s = (Return tt, s1)
    /\ session s1 = Ready
    /\ attached s1 (length (asyncio.streams (world s))) st
    /\ drained st /\ asyncio.incoming st = evs.
Proof.
  intros Hr Hd Hpeer Hpw Hl Ht Hid Hn Hdec Hrl.
  rewrite (connect_accepted timeout s peer ds Hr Hd).
  rewrite (login_whole s peer rtype rid rbody evs ds pwb Hpw Hl Hrl Hpeer).
  rewrite (parse_payload rtype rid rbody rmsg _ Ht Hid Hn Hdec).
  eexists.
  exists (reading [] false evs
            (wrote (request (next_id s) MessageType.LOGIN pwb)
                   (asyncio.fresh peer))).
  split; [reflexivity|]. split; [reflexivity|].
  split; [|split; [split; reflexivity | reflexivity]].
  split; [reflexivity|]. split; [reflexivity|]. split; [|reflexivity].
  unfold readied.
  apply (stream_of_with_stream _ (asyncio.fresh peer)).
  rewrite stream_of_drawn. apply stream_of_opened.
Qed.

(** X21. The body of the login response is decoded although it is not
    used: when it is not valid UTF-8, [connect] raises [UnicodeDecodeError]
    and the client stays Disconnected. *)
Theorem login_with_undecodable_body
    timeout s peer ds pwb rtype rid rbody e evs :
  _ready (self s) = false ->
  asyncio.dials (world s) = asyncio.accept peer :: ds ->
  peer = asyncio.feed_data (response rtype rid rbody) :: evs ->
  utf8.encode (password (self s)) = inr pwb ->
  Z.of_nat (length pwb) + 10 <= struct.INT_MAX ->
  struct.in_range rtype = true -> struct.in_range rid = true ->
  rtype <> MessageType.INVALID_AUTH ->
  utf8.decode rbody = inl e ->
  Z.of_nat (length rbody) + 10 <= struct.INT_MAX ->
  exists s1,
    connect timeout s = (Raise UnicodeDecodeError, s1)
    /\ session s1 = Disconnected.
Proof.
  intros Hr Hd Hpeer Hpw Hl Ht Hid Hn Hdec Hrl.
  rewrite (connect_accepted timeout s peer ds Hr Hd).
  rewrite (login_whole s peer rtype rid rbody evs ds pwb Hpw Hl Hrl Hpeer).
  rewrite (parse_undecodable rtype rid rbody e _ Ht Hid Hn Hdec).
  eexists. split; [reflexivity|].
  unfold session. simpl. rewrite Hr. reflexivity.
Qed.

(** ** The invariant of a ready client *)

Lemma send_cmd_transport re_bound cmd timeout strip_colors :
  stable (each same_transport) (send_cmd re_bound cmd timeout strip_colors).
Proof.
  unfold send_cmd. apply stable_bind;
    [apply each_trans, same_transport_trans
    | apply stable_getattr, each_refl, same_transport_refl |].
  intros ready.
  destruct (negb ready);
    [apply stable_raise, each_refl, same_transport_refl|].
  apply stable_bind; [apply each_trans, same_transport_trans | |].
  - apply stable_wait_for, _send_msg_transport.
  - intros value.
    destruct (isinstance_bool strip_colors && truth strip_colors);
      [destruct re_bound|];
      first [ apply stable_ret, each_refl, same_transport_refl
            | apply stable_raise, each_refl, same_transport_refl ].
Qed.

Lemma attached_each s s' h st :
  each same_transport s s' -> attached s h st ->
  exists st', attached s' h st'.
Proof.
  intros [Hself H] (Hr & Hw & Hs & Hc).
  destruct (H h st Hs) as (st' & Hs' & Hc'). exists st'.
  unfold attached. rewrite Hself. unfold same_transport in Hc'.
  repeat split; congruence.
Qed.








(** [write] and [drain], one after the other, by the state of the
    connection: on a connection that is up the data goes out; when the
    peer is gone the send fails, [drain] raises [ConnectionResetError] and
    the connection is lost with the error of the send; on a connection
    that is lost already [drain] raises the error it was lost with.
    Nothing is written in these cases. *)
Lemma write_then_drain s h st data :
  stream_of s h = Some st ->
  (let* _ := lift (asyncio.write h data) in lift (asyncio.drain h)) s =
    match asyncio.link st with
    | asyncio.established => (Return tt, with_stream h (wrote data st) s)
    | asyncio.reset e | asyncio.dying e =>
        (Raise ConnectionResetError,
         with_stream h (asyncio.relinked (asyncio.lost e) st) s)
    | asyncio.lost e => (Raise e, s)
    | asyncio.shut => (Raise ConnectionResetError, s)
    end.
Proof.
  intros Hs. unfold asyncio.write, asyncio.drain.
  erewrite bind_return; cycle 1.
  { eapply lift_on_stream; [exact Hs | reflexivity]. }
  destruct (asyncio.link st) as [|e|e|e|] eqn:El.
  - erewrite lift_on_stream;
      [| eapply stream_of_with_stream, Hs | reflexivity].
    rewrite with_stream_twice. unfold wrote. rewrite El. reflexivity.
  - erewrite lift_on_stream;
      [| eapply stream_of_with_stream, Hs | reflexivity].
    rewrite with_stream_twice. reflexivity.
  - erewrite lift_on_stream;
      [| eapply stream_of_with_stream, Hs | rewrite El; reflexivity].
    rewrite with_stream_twice. reflexivity.
  - erewrite lift_on_stream;
      [| eapply stream_of_with_stream, Hs | rewrite El; reflexivity].
    rewrite with_stream_twice, (with_stream_same h st s Hs). reflexivity.
  - erewrite lift_on_stream;
      [| eapply stream_of_with_stream, Hs | rewrite El; reflexivity].
    rewrite with_stream_twice, (with_stream_same h st s Hs). reflexivity.
Qed.













(** ** A connection that fails *)

(** The send path up to the two calls on the writer. *)
Lemma transmit_run type_ msg body s h :
  struct.in_range type_ = true ->
  utf8.encode msg = inr body ->
  Z.of_nat (length body) + 10 <= struct.INT_MAX ->
  _writer (self s) = Some h ->
  transmit type_ msg s =
    (let* _ := lift (asyncio.write h (request (next_id s) type_ body)) in
     lift (asyncio.drain h)) (drawn s).
Proof.
  intros Ht Hb Hl Hw. unfold transmit.
  rewrite (bind_return _ _ _ _ _ (randint_draws s)).
  unfold struct.pack_ii. rewrite next_id_range, Ht. simpl andb. cbv iota.
  rewrite Hb. simpl of_result. unfold bind at 1 2. unfold ret at 1 2.
  cbv zeta.
  rewrite length_request_data by reflexivity.
  unfold struct.pack_i.
  replace (struct.in_range (Z.of_nat (length body) + 10)) with true
    by (symmetry; apply in_range_spec; unfold struct.INT_MAX in Hl; lia).
  simpl of_result. unfold bind at 1. unfold ret at 1.
  rewrite (bind_return _ _ _ _ _ (object_some _writer (drawn s) h Hw)).
  reflexivity.
Qed.

(** [send_cmd] on a ready client whose send path raises. *)
Lemma send_cmd_transmit_raises re_bound cmd timeout strip_colors s e s' :
  _ready (self s) = true ->
  transmit MessageType.COMMAND cmd s = (Raise e, s') ->
  send_cmd re_bound cmd timeout strip_colors s = (Raise e, s').
Proof.
  intros Hr H. rewrite (send_cmd_outcome _ _ _ _ _ Hr).
  unfold asyncio.wait_for.
  rewrite _send_msg_split, (bind_raise _ _ _ _ _ H).
  destruct timeout; reflexivity.
Qed.

(** X24. When the peer is gone and the transport has not noticed, the
    send of [send_cmd] fails: nothing goes out, [drain] raises
    [ConnectionResetError], which [send_cmd] lets through, and the
    connection is lost with the error of the send.  The client stays
    Ready. *)
Theorem send_cmd_on_a_reset_connection
    re_bound cmd body timeout strip_colors s h st e :
  _ready (self s) = true ->
  _writer (self s) = Some h -> stream_of s h = Some st ->
  asyncio.link st = asyncio.reset e ->
  utf8.encode cmd = inr body ->
  Z.of_nat (length body) + 10 <= struct.INT_MAX ->
  exists s' st',
    send_cmd re_bound cmd timeout strip_colors s
    = (Raise ConnectionResetError, s')
    /\ session s' = Ready
    /\ stream_of s' h = Some st'
    /\ asyncio.sent st' = asyncio.sent st
    /\ asyncio.link st' = asyncio.lost e.
Proof.
  intros Hr Hw Hs El Hb Hl.
  exists (with_stream h (asyncio.relinked (asyncio.lost e) st) (drawn s)),
         (asyncio.relinked (asyncio.lost e) st).
  split.
  - apply (send_cmd_transmit_raises _ _ _ _ _ _ _ Hr).
    rewrite (transmit_run MessageType.COMMAND cmd body s h eq_refl Hb Hl Hw).
    rewrite (write_then_drain (drawn s) h st _ Hs), El. reflexivity.
  - split; [unfold session; simpl; rewrite Hr; reflexivity|].
    split; [|split; reflexivity].
    apply (stream_of_with_stream h st _ (drawn s)). exact Hs.
Qed.

(** X25. Once the connection is lost with an error, the client, which is
    still Ready, gets that error from every call: [send_cmd] raises it
    out of [drain], nothing being written, and [close] raises it out of
    [wait_closed] and changes nothing, [_ready] included, so that a
    second [close] raises it again. *)
Theorem lost_connection_raises_its_error s h st e :
  _ready (self s) = true ->
  _writer (self s) = Some h -> stream_of s h = Some st ->
  asyncio.link st = asyncio.lost e ->
  (forall re_bound cmd body timeout strip_colors,
     utf8.encode cmd = inr body ->
     Z.of_nat (length body) + 10 <= struct.INT_MAX ->
     send_cmd re_bound cmd timeout strip_colors s = (Raise e, drawn s)
     /\ session (drawn s) = Ready
     /\ stream_of (drawn s) h = Some st)
  /\ close s = (Raise e, s)
  /\ session s = Ready.
Proof.
  intros Hr Hw Hs El. split; [|split].
  - intros re_bound cmd body timeout strip_colors Hb Hl. split.
    + apply (send_cmd_transmit_raises _ _ _ _ _ _ _ Hr).
      rewrite (transmit_run MessageType.COMMAND cmd body s h eq_refl Hb Hl Hw).
      rewrite (write_then_drain (drawn s) h st _ Hs), El. reflexivity.
    + split; [unfold session; simpl; rewrite Hr; reflexivity | exact Hs].
  - apply (close_lost s h st e Hr Hw Hs El).
  - unfold session. rewrite Hr. reflexivity.
Qed.

(** ** close *)


(** X13. After a rejected login [close] does nothing, since the client is
    not ready: the transport that [connect] opened stays open, and this
    client never closes it. *)
Theorem rejected_login_is_never_closed
    timeout s peer evs ds pwb req_id body :
  _ready (self s) = false ->
  asyncio.dials (world s) = asyncio.accept peer :: ds ->
  peer = asyncio.feed_data (response MessageType.INVALID_AUTH req_id body)
         :: evs ->
  utf8.encode (password (self s)) = inr pwb ->
  Z.of_nat (length pwb) + 10 <= struct.INT_MAX ->
  struct.in_range req_id = true ->
  Z.of_nat (length body) + 10 <= struct.INT_MAX ->
  exists s1,
    connect timeout s = (Raise IncorrectPasswordError, s1)
    /\ close s1 = (Return tt, s1)
    /\ ~ transport_closed s1 (length (asyncio.streams (world s))).
Proof.
  intros Hr Hd Hpeer Hpw Hl Hid Hb.
  rewrite (connect_accepted timeout s peer ds Hr Hd).
  rewrite (login_whole s peer MessageType.INVALID_AUTH req_id body evs ds pwb
             Hpw Hl Hb Hpeer).
  rewrite (parse_invalid_auth req_id body _ Hid).
  eexists. split; [reflexivity|]. split.
  - apply close_not_ready. exact Hr.
  - intros (st & Hst & Hclosed).
    erewrite stream_of_with_stream in Hst;
      [|rewrite stream_of_drawn; apply stream_of_opened].
    injection Hst as <-. discriminate Hclosed.
Qed.

(** X19. After a [close] that returns, [send_cmd] raises
    [ClientNotConnectedError] and changes nothing, whatever the state
    [close] was called in. *)
Theorem send_cmd_after_close re_bound cmd timeout strip_colors s s1 :
  close s = (Return tt, s1) ->
  send_cmd re_bound cmd timeout strip_colors s1
  = (Raise ClientNotConnectedError, s1).
Proof.
  intros H. apply send_cmd_not_ready.
  destruct (_ready (self s)) eqn:Hr.
  - rewrite (close_split s Hr) in H.
    destruct (shutdown s) as [[[]|e|] s2]; try discriminate H.
    injection H as <-. reflexivity.
  - rewrite (close_not_ready s Hr) in H. injection H as <-. exact Hr.
Qed.

(** ** Responses and segments *)

(** X14. When the peer hands the request back byte for byte, [send_cmd]
    without stripping returns the command itself as the body, whatever its
    characters (NUL included), with the request id it drew as the type:
    the body survives encoding, framing and decoding. *)
Theorem echoed_command_comes_back re_bound cmd body timeout s h st evs :
  _ready (self s) = true ->
  attached s h st -> drained st ->
  utf8.encode cmd = inr body ->
  Z.of_nat (length body) + 10 <= struct.INT_MAX ->
  asyncio.incoming st
  = asyncio.feed_data (request (next_id s) MessageType.COMMAND body) :: evs ->
  fst (send_cmd re_bound cmd timeout (bool_ false) s)
  = Return (cmd, next_id s).
Proof.
  intros Hr (Hrd & Hw & Hs & Hc) [Hbuf He] Hb Hl Hi.
  pose proof (echo_returns_request_id MessageType.COMMAND cmd body s h st evs
                eq_refl Hb Hl Hw Hrd Hs Hc Hbuf He Hi) as E.
  rewrite (send_cmd_outcome _ _ _ _ _ Hr). unfold asyncio.wait_for.
  destruct (_send_msg MessageType.COMMAND cmd s) as [r s'].
  simpl in E. subst r. destruct timeout; reflexivity.
Qed.

(** Reading as many bytes as [pl] has, from a buffer that starts with
    [pl]. *)
Lemma read_announced st pl extra :
  asyncio.closed st = false ->
  asyncio.buffer st = pl ++ extra ->
  asyncio.read_stream (Z.of_nat (length pl)) st
  = (Return pl, reading extra (asyncio.eof st) (asyncio.incoming st) st).
Proof.
  intros Hc Hb. destruct pl as [|b pl'].
  - rewrite read_zero by exact Hc. destruct st. simpl in *. subst.
    reflexivity.
  - rewrite read_buffered;
      [| simpl; lia | rewrite Hb; discriminate | exact Hc].
    rewrite Nat2Z.id, Hb, take_app_length, drop_app_length. reflexivity.
Qed.

(** The receive path on a reader whose buffer starts with a whole
    response: it takes that response and leaves the rest. *)
Lemma receive_from_buffer s h st pl extra :
  _reader (self s) = Some h ->
  stream_of s h = Some st ->
  asyncio.closed st = false ->
  asyncio.buffer st = struct.le32 (Z.of_nat (length pl)) ++ pl ++ extra ->
  struct.in_range (Z.of_nat (length pl)) = true ->
  receive s
  = parse pl
      (with_stream h
         (reading extra (asyncio.eof st) (asyncio.incoming st) st) s).
Proof.
  intros Hr Hs Hc Hb Hl. unfold receive.
  rewrite (bind_return _ _ _ _ _ (object_some _reader s h Hr)).
  unfold asyncio.read.
  erewrite bind_return; cycle 1.
  { eapply lift_on_stream; [exact Hs|].
    apply (read_announced st (struct.le32 (Z.of_nat (length pl)))
             (pl ++ extra) Hc Hb). }
  rewrite unpack_pack_i by exact Hl.
  rewrite (bind_return _ _ _ _ _ (of_result_inr _ _)).
  erewrite bind_return; cycle 1.
  { eapply lift_on_stream; [eapply stream_of_with_stream, Hs|].
    apply (read_announced _ pl extra); [exact Hc | reflexivity]. }
  rewrite with_stream_twice. reflexivity.
Qed.

(** The same when the reader is drained and the response comes at the
    head of the next segment. *)
Lemma receive_first_of_segment s h st pl extra evs :
  _reader (self s) = Some h ->
  stream_of s h = Some st -> drained st ->
  asyncio.closed st = false ->
  asyncio.incoming st
  = asyncio.feed_data (struct.le32 (Z.of_nat (length pl)) ++ pl ++ extra)
    :: evs ->
  struct.in_range (Z.of_nat (length pl)) = true ->
  receive s = parse pl (with_stream h (reading extra false evs st) s).
Proof.
  intros Hr Hs Hd Hc Hi Hl. rewrite (receive_waits s h st Hr Hs Hd Hc), Hi.
  change (asyncio.wait_for_data
            (asyncio.feed_data
               (struct.le32 (Z.of_nat (length pl)) ++ pl ++ extra) :: evs))
    with (Some (struct.le32 (Z.of_nat (length pl)) ++ pl ++ extra, false, evs)).
  cbv iota beta.
  change (take 4 (struct.le32 (Z.of_nat (length pl)) ++ pl ++ extra))
    with (struct.le32 (Z.of_nat (length pl))).
  change (drop 4 (struct.le32 (Z.of_nat (length pl)) ++ pl ++ extra))
    with (pl ++ extra).
  rewrite unpack_pack_i by exact Hl.
  rewrite (bind_return _ _ _ _ _ (of_result_inr _ _)).
  unfold asyncio.read. erewrite bind_return; cycle 1.
  { eapply lift_on_stream; [eapply stream_of_with_stream, Hs|].
    apply (read_announced _ pl extra); [exact Hc | reflexivity]. }
  rewrite with_stream_twice. reflexivity.
Qed.

(** X15. Two responses that reach the client in one segment are told
    apart: the first [send_cmd] returns the first one and leaves the second
    one buffered, and the next [send_cmd] returns the second one without
    waiting for the peer. *)
Theorem coalesced_responses_are_told_apart
    re_bound cmd1 cmd2 body1 body2 timeout1 timeout2 s h st
    type1 id1 rbody1 msg1 type2 id2 rbody2 msg2 evs :
  _ready (self s) = true ->
  attached s h st -> drained st ->
  utf8.encode cmd1 = inr body1 ->
  Z.of_nat (length body1) + 10 <= struct.INT_MAX ->
  utf8.encode cmd2 = inr body2 ->
  Z.of_nat (length body2) + 10 <= struct.INT_MAX ->
  asyncio.incoming st
  = asyncio.feed_data (response type1 id1 rbody1 ++ response type2 id2 rbody2)
    :: evs ->
  struct.in_range type1 = true -> struct.in_range id1 = true ->
  type1 <> MessageType.INVALID_AUTH ->
  utf8.decode rbody1 = inr msg1 ->
  Z.of_nat (length rbody1) + 10 <= struct.INT_MAX ->
  struct.in_range type2 = true -> struct.in_range id2 = true ->
  type2 <> MessageType.INVALID_AUTH ->
  utf8.decode rbody2 = inr msg2 ->
  Z.of_nat (length rbody2) + 10 <= struct.INT_MAX ->
  exists s1 s2,
    send_cmd re_bound cmd1 timeout1 (bool_ false) s = (Return (msg1, type1), s1)
    /\ send_cmd re_bound cmd2 timeout2 (bool_ false) s1
       = (Return (msg2, type2), s2)
    /\ asyncio.incoming <$> stream_of s2 h = Some evs.
Proof.
  intros Hr Ha Hd Hb1 Hl1 Hb2 Hl2 Hi Ht1 Hi1 Hn1 Hd1 Hr1 Ht2 Hi2 Hn2 Hd2 Hr2.
  unfold response at 1 in Hi. rewrite <- app_assoc in Hi.
  set (st1 := reading (response type2 id2 rbody2) false evs
                (wrote (request (next_id s) MessageType.COMMAND body1) st)).
  set (s1 := with_stream h st1 (drawn s)).
  assert (E1 : _send_msg MessageType.COMMAND cmd1 s
               = (Return (msg1, type1), s1)).
  { rewrite (_send_msg_attached MessageType.COMMAND cmd1 body1 s h st
               eq_refl Hb1 Hl1 Ha).
    destruct Ha as (Hrd & _ & Hs & Hc).
    erewrite (receive_first_of_segment _ h (wrote _ st)
               (payload type1 id1 rbody1) (response type2 id2 rbody2) evs).
    - rewrite with_stream_twice.
      apply (parse_payload type1 id1 rbody1 msg1 _ Ht1 Hi1 Hn1 Hd1).
    - exact Hrd.
    - eapply stream_of_with_stream. rewrite stream_of_drawn. exact Hs.
    - exact Hd.
    - exact Hc.
    - exact Hi.
    - apply in_range_length_payload, Hr1. }
  assert (Ha1 : attached s1 h st1).
  { destruct Ha as (Hrd & Hw & Hs & Hc).
    split; [exact Hrd|]. split; [exact Hw|]. split; [|exact Hc].
    apply (stream_of_with_stream h st st1 (drawn s)).
    rewrite stream_of_drawn. exact Hs. }
  set (st2 := reading [] false evs
                (wrote (request (next_id s1) MessageType.COMMAND body2) st1)).
  assert (E2 : _send_msg MessageType.COMMAND cmd2 s1
               = (Return (msg2, type2), with_stream h st2 (drawn s1))).
  { rewrite (_send_msg_attached MessageType.COMMAND cmd2 body2 s1 h st1
               eq_refl Hb2 Hl2 Ha1).
    destruct Ha1 as (Hrd & _ & Hs & Hc).
    erewrite (receive_from_buffer _ h (wrote _ st1)
               (payload type2 id2 rbody2) []).
    - rewrite with_stream_twice.
      apply (parse_payload type2 id2 rbody2 msg2 _ Ht2 Hi2 Hn2 Hd2).
    - exact Hrd.
    - eapply stream_of_with_stream. rewrite stream_of_drawn. exact Hs.
    - exact Hc.
    - simpl asyncio.buffer. rewrite app_nil_r. reflexivity.
    - apply in_range_length_payload, Hr2. }
  exists s1, (with_stream h st2 (drawn s1)). split; [|split].
  - rewrite (send_cmd_outcome _ _ _ _ _ Hr). unfold asyncio.wait_for.
    rewrite E1. destruct timeout1; reflexivity.
  - rewrite (send_cmd_outcome re_bound cmd2 timeout2 (bool_ false) s1 Hr).
    unfold asyncio.wait_for. rewrite E2. destruct timeout2; reflexivity.
  - destruct Ha1 as (_ & _ & Hs & _).
    erewrite stream_of_with_stream; [reflexivity|].
    rewrite stream_of_drawn. exact Hs.
Qed.

(** ** Payloads too short for the two integers *)

(** [_send_msg] once its request is out and its two reads have returned. *)
Lemma _send_msg_reads type_ msg s s1 reader raw_len s2 in_len in_data s3 :
  transmit type_ msg s = (Return tt, s1) ->
  _reader (self s1) = Some reader ->
  lift (asyncio.read reader 4) s1 = (Return raw_len, s2) ->
  struct.unpack_i raw_len = inr in_len ->
  lift (asyncio.read reader in_len) s2 = (Return in_data, s3) ->
  _send_msg type_ msg s = parse in_data s3.
Proof.
  intros Ht Hr H4 Hlen Hdata.
  rewrite (_send_msg_after_transmit _ _ _ _ Ht). unfold receive.
  rewrite (bind_return _ _ _ _ _ (object_some _reader s1 reader Hr)).
  rewrite (bind_return _ _ _ _ _ H4).
  rewrite Hlen, (bind_return _ _ _ _ _ (of_result_inr _ _)).
  rewrite (bind_return _ _ _ _ _ Hdata). reflexivity.
Qed.

Lemma slice_first_eight {A} (l : list A) : slice l 0 8 = take 8 l.
Proof.
  unfold slice, slice_index.
  change (0 <? 0) with false. change (8 <? 0) with false. cbv iota.
  replace (Z.to_nat (Z.min 0 (Z.of_nat (length l)))) with 0%nat by lia.
  rewrite drop_0, Nat.sub_0_r.
  destruct (Z.le_ge_cases 8 (Z.of_nat (length l))).
  - replace (Z.to_nat (Z.min 8 (Z.of_nat (length l)))) with 8%nat by lia.
    reflexivity.
  - replace (Z.to_nat (Z.min 8 (Z.of_nat (length l)))) with (length l) by lia.
    rewrite firstn_all. symmetry. apply take_ge. lia.
Qed.

Lemma slice_body_of_short {A} (l : list A) :
  (length l <= 10)%nat -> slice l 8 (-2) = [].
Proof.
  intros H. unfold slice, slice_index.
  change (8 <? 0) with false. change (-2 <? 0) with true. cbv iota.
  replace (Z.to_nat (Z.max 0 (Z.of_nat (length l) + -2))
           - Z.to_nat (Z.min 8 (Z.of_nat (length l))))%nat with 0%nat by lia.
  reflexivity.
Qed.

Lemma unpack_ii_short (b : bytes) :
  (length b < 8)%nat -> struct.unpack_ii b = inl struct_error.
Proof.
  intros H. do 8 (destruct b as [|? b]; [reflexivity|]). simpl in H. lia.
Qed.

(** X18. A payload that ends in two NUL bytes passes the terminator check
    whatever its length.  With fewer than 8 bytes, [_send_msg] raises
    [struct.error]; with 8 or 9 bytes, it returns the empty body and the
    first integer as the type (unless that integer is -1). *)
Theorem terminated_payload_under_ten_bytes
    type_ msg s s1 reader raw_len s2 in_len in_data s3 :
  transmit type_ msg s = (Return tt, s1) ->
  _reader (self s1) = Some reader ->
  lift (asyncio.read reader 4) s1 = (Return raw_len, s2) ->
  struct.unpack_i raw_len = inr in_len ->
  lift (asyncio.read reader in_len) s2 = (Return in_data, s3) ->
  endswith in_data [x00; x00] = true ->
  ((length in_data < 8)%nat ->
   _send_msg type_ msg s = (Raise struct_error, s3))
  /\ ((8 <= length in_data <= 9)%nat ->
      forall in_type in_req_id,
        struct.unpack_ii (take 8 in_data) = inr (in_type, in_req_id) ->
        in_type <> MessageType.INVALID_AUTH ->
        _send_msg type_ msg s = (Return ([], in_type), s3)).
Proof.
  intros Ht Hr H4 Hlen Hdata Hend.
  rewrite (_send_msg_reads _ _ _ _ _ _ _ _ _ _ Ht Hr H4 Hlen Hdata).
  unfold parse. rewrite Hend, slice_first_eight.
  change (negb true) with false. cbv iota. split.
  - intros Hshort. rewrite unpack_ii_short; [reflexivity|].
    rewrite length_take. lia.
  - intros Hlen89 in_type in_req_id Hu Hn. rewrite Hu.
    rewrite (bind_return _ _ _ _ _ (of_result_inr _ _)).
    replace (in_type =? MessageType.INVALID_AUTH) with false by lia.
    rewrite slice_body_of_short by lia. reflexivity.
Qed.

(** ** async with *)



(** ** The further properties at work on the example sessions *)

(** Proves by evaluation a closed fact about an example session. *)
Ltac evaluate :=
  repeat split; vm_compute; first [reflexivity | discriminate].

(** X1 on [list_players]. *)
Lemma connect_twice_witness :
  session logged_in = Ready /\ connect None logged_in = (Return tt, logged_in).
Proof.
  apply (connect_twice default_timeout None list_players logged_in).
  evaluate.
Defined.

(** X2 on [refused_dial] and [unreachable_dial]. *)
Lemma connect_wraps_failures_witness :
  connect default_timeout refused_dial
  = (Raise (RCONConnectionError "The remote server refused the connection."
              ConnectionRefusedError),
     dialled [] refused_dial)
  /\ connect default_timeout unreachable_dial
     = (Raise (RCONConnectionError
                 "The connection failed for an unknown reason." OSError),
        dialled [] unreachable_dial).
Proof.
  split.
  - apply (proj1 (connect_wraps_failures default_timeout refused_dial []
                    eq_refl)).
    reflexivity.
  - apply (proj2 (connect_wraps_failures default_timeout unreachable_dial []
                    eq_refl)).
    reflexivity.
Defined.


(** X4 on [garbled_reply]: the command is written although the call
    fails. *)
Lemma send_cmd_writes_one_request_witness :
  exists st',
    stream_of (snd (send_cmd true (literal "list") default_timeout
                      (bool_ true) garbled_reply)) 0 = Some st'
    /\ asyncio.sent st'
       = [] ++ request 5 MessageType.COMMAND (list_byte_of_string "list")
    /\ 0 <= 5 <= 2147483647.
Proof.
  apply (send_cmd_writes_one_request true (literal "list")
           (list_byte_of_string "list") default_timeout (bool_ true)
           garbled_reply 0%nat (the_stream garbled_reply)); evaluate.
Defined.

(** X6 on [garbled_reply]. *)
Lemma undecodable_body_raises_witness :
  exists s',
    send_cmd true (literal "list") default_timeout (bool_ true) garbled_reply
    = (Raise UnicodeDecodeError, s')
    /\ session s' = Ready.
Proof.
  apply (undecodable_body_raises true (literal "list")
           (list_byte_of_string "list") default_timeout (bool_ true)
           garbled_reply 0%nat (the_stream garbled_reply)
           MessageType.RESPONSE 7 [xff] UnicodeDecodeError []); evaluate.
Defined.

(** X7 on [hung_up]. *)
Lemma hang_up_raises_struct_error_witness :
  exists s',
    send_cmd true (literal "list") default_timeout (bool_ true) hung_up
    = (Raise struct_error, s')
    /\ session s' = Ready.
Proof.
  apply (hang_up_raises_struct_error true (literal "list")
           (list_byte_of_string "list") default_timeout (bool_ true)
           hung_up 0%nat (the_stream hung_up) []); evaluate.
Defined.

(** X8 on [silent_server]. *)
Lemma unanswered_command_times_out_witness :
  (forall t, exists s',
     send_cmd true (literal "list") (Some t) (bool_ true) silent_server
     = (Raise asyncio_TimeoutError, s')
     /\ session s' = Ready
     /\ asyncio.sent <$> stream_of s' 0
        = Some (asyncio.sent (the_stream silent_server)
                ++ request (next_id silent_server) MessageType.COMMAND
                     (list_byte_of_string "list")))
  /\ fst (send_cmd true (literal "list") None (bool_ true) silent_server)
     = Blocked.
Proof.
  apply (unanswered_command_times_out true (literal "list")
           (list_byte_of_string "list") (bool_ true)
           silent_server 0%nat (the_stream silent_server)); evaluate.
Defined.

(** X9 on [refused_command]. *)
Lemma command_answered_invalid_auth_witness :
  exists s',
    send_cmd true (literal "list") default_timeout (bool_ true) refused_command
    = (Raise IncorrectPasswordError, s')
    /\ session s' = Ready.
Proof.
  apply (command_answered_invalid_auth true (literal "list")
           (list_byte_of_string "list") default_timeout (bool_ true)
           refused_command 0%nat (the_stream refused_command) 7 [xff] []);
    evaluate.
Defined.

(** X10 on [logged_in]. *)
Lemma stripping_leaves_plain_text_witness :
  send_cmd true (literal "list") default_timeout (bool_ true) logged_in
  = (Return (literal "There are 3 players online", 0),
     snd (send_cmd true (literal "list") default_timeout (bool_ false)
            logged_in)).
Proof.
  apply (stripping_leaves_plain_text (literal "list") default_timeout
           logged_in).
  - vm_compute. reflexivity.
  - repeat constructor; discriminate.
Defined.


(** X13 on [rejected_login]. *)
Lemma rejected_login_is_never_closed_witness :
  exists s1,
    connect default_timeout rejected_login = (Raise IncorrectPasswordError, s1)
    /\ close s1 = (Return tt, s1)
    /\ ~ transport_closed s1 0.
Proof.
  apply (rejected_login_is_never_closed default_timeout rejected_login
           [asyncio.feed_data (response MessageType.INVALID_AUTH 0 [])]
           [] [] (list_byte_of_string "hunter2") 0 []); evaluate.
Defined.

(** X14 on [echo_nul]: a command with a NUL character in it. *)
Lemma echoed_command_comes_back_witness :
  fst (send_cmd true (literal "tick" ++ [0] ++ literal "tock") default_timeout
         (bool_ false) echo_nul)
  = Return (literal "tick" ++ [0] ++ literal "tock", 1234).
Proof.
  apply (echoed_command_comes_back true
           (literal "tick" ++ [0] ++ literal "tock")
           (list_byte_of_string "tick" ++ [x00] ++ list_byte_of_string "tock")
           default_timeout echo_nul 0%nat (the_stream echo_nul) []); evaluate.
Defined.

(** X15 on [coalesced_replies]. *)
Lemma coalesced_responses_witness :
  exists s1 s2,
    send_cmd true (literal "a") default_timeout (bool_ false) coalesced_replies
    = (Return (literal "one", MessageType.RESPONSE), s1)
    /\ send_cmd true (literal "b") default_timeout (bool_ false) s1
       = (Return (literal "two", MessageType.RESPONSE), s2)
    /\ asyncio.incoming <$> stream_of s2 0 = Some [].
Proof.
  apply (coalesced_responses_are_told_apart true (literal "a") (literal "b")
           (list_byte_of_string "a") (list_byte_of_string "b")
           default_timeout default_timeout coalesced_replies 0%nat
           (the_stream coalesced_replies)
           MessageType.RESPONSE 1 (list_byte_of_string "one") (literal "one")
           MessageType.RESPONSE 2 (list_byte_of_string "two") (literal "two")
           []); evaluate.
Defined.


(** X17 on [surrogate_password]. *)
Lemma unencodable_password_witness :
  exists s1 st,
    connect default_timeout surrogate_password = (Raise UnicodeEncodeError, s1)
    /\ session s1 = Disconnected
    /\ stream_of s1 0 = Some st
    /\ asyncio.sent st = [] /\ asyncio.closed st = false.
Proof.
  apply (unencodable_password default_timeout surrogate_password [] []
           UnicodeEncodeError); evaluate.
Defined.

(** X18 on [stunted_reply] (six bytes) and [nine_byte_reply]. *)
Lemma terminated_payload_under_ten_bytes_witness :
  fst (_send_msg MessageType.COMMAND (literal "list") stunted_reply)
  = Raise struct_error
  /\ fst (_send_msg MessageType.COMMAND (literal "list") nine_byte_reply)
     = Return ([], 4).
Proof.
  split.
  - set (s1 := snd (transmit MessageType.COMMAND (literal "list")
                      stunted_reply)).
    set (s2 := snd (lift (asyncio.read 0 4) s1)).
    set (s3 := snd (lift (asyncio.read 0 6) s2)).
    pose proof (proj1 (terminated_payload_under_ten_bytes
                         MessageType.COMMAND (literal "list") stunted_reply
                         s1 0%nat (struct.le32 6) s2 6
                         [x01; x02; x03; x04; x00; x00] s3
                         ltac:(vm_compute; reflexivity)
                         ltac:(vm_compute; reflexivity)
                         ltac:(vm_compute; reflexivity)
                         ltac:(vm_compute; reflexivity)
                         ltac:(vm_compute; reflexivity)
                         ltac:(vm_compute; reflexivity))
                  ltac:(simpl; lia)) as E.
    rewrite E. reflexivity.
  - set (s1 := snd (transmit MessageType.COMMAND (literal "list")
                      nine_byte_reply)).
    set (s2 := snd (lift (asyncio.read 0 4) s1)).
    set (s3 := snd (lift (asyncio.read 0 9) s2)).
    pose proof (proj2 (terminated_payload_under_ten_bytes
                         MessageType.COMMAND (literal "list") nine_byte_reply
                         s1 0%nat (struct.le32 9) s2 9
                         (struct.le32 4 ++ [x01; x02; x03; x00; x00]) s3
                         ltac:(vm_compute; reflexivity)
                         ltac:(vm_compute; reflexivity)
                         ltac:(vm_compute; reflexivity)
                         ltac:(vm_compute; reflexivity)
                         ltac:(vm_compute; reflexivity)
                         ltac:(vm_compute; reflexivity))
                  ltac:(simpl; lia) 4 197121
                  ltac:(vm_compute; reflexivity)
                  ltac:(discriminate)) as E.
    rewrite E. reflexivity.
Defined.

(** X19 on [logged_in]. *)
Lemma send_cmd_after_close_witness :
  send_cmd true (literal "list") default_timeout (bool_ true)
    (snd (close logged_in))
  = (Raise ClientNotConnectedError, snd (close logged_in)).
Proof.
  apply (send_cmd_after_close true (literal "list") default_timeout
           (bool_ true) logged_in (snd (close logged_in))).
  vm_compute. reflexivity.
Defined.

(** X20 on [odd_login]: a login answered with type 2. *)
Lemma login_succeeds_witness :
  exists s1 st,
    connect default_timeout odd_login = (Return tt, s1)
    /\ session s1 = Ready
    /\ attached s1 0 st
    /\ drained st /\ asyncio.incoming st = [].
Proof.
  apply (login_succeeds_unless_invalid_auth default_timeout odd_login
           [asyncio.feed_data
              (response MessageType.COMMAND 9 (list_byte_of_string "ok"))]
           [] (list_byte_of_string "hunter2")
           MessageType.COMMAND 9 (list_byte_of_string "ok") (literal "ok") []);
    evaluate.
Defined.

(** X21 on [garbled_login]. *)
Lemma login_with_undecodable_body_witness :
  exists s1,
    connect default_timeout garbled_login = (Raise UnicodeDecodeError, s1)
    /\ session s1 = Disconnected.
Proof.
  apply (login_with_undecodable_body default_timeout garbled_login
           [asyncio.feed_data (response MessageType.RESPONSE 0 [xff])]
           [] (list_byte_of_string "hunter2")
           MessageType.RESPONSE 0 [xff] UnicodeDecodeError []); evaluate.
Defined.


(** X24 on [peer_gone]. *)
Lemma send_cmd_on_a_reset_connection_witness :
  exists s' st',
    send_cmd true (literal "list") default_timeout (bool_ true) peer_gone
    = (Raise ConnectionResetError, s')
    /\ session s' = Ready
    /\ stream_of s' 0 = Some st'
    /\ asyncio.sent st' = asyncio.sent (the_stream peer_gone)
    /\ asyncio.link st' = asyncio.lost BrokenPipeError.
Proof.
  apply (send_cmd_on_a_reset_connection true (literal "list")
           (list_byte_of_string "list") default_timeout (bool_ true)
           peer_gone 0%nat (the_stream peer_gone) BrokenPipeError); evaluate.
Defined.

(** X25 on [lost_session]. *)
Lemma lost_connection_raises_its_error_witness :
  (forall re_bound cmd body timeout strip_colors,
     utf8.encode cmd = inr body ->
     Z.of_nat (length body) + 10 <= struct.INT_MAX ->
     send_cmd re_bound cmd timeout strip_colors lost_session
     = (Raise BrokenPipeError, drawn lost_session)
     /\ session (drawn lost_session) = Ready
     /\ stream_of (drawn lost_session) 0 = Some (the_stream lost_session))
  /\ close lost_session = (Raise BrokenPipeError, lost_session)
  /\ session lost_session = Ready.
Proof.
  apply (lost_connection_raises_its_error lost_session 0%nat
           (the_stream lost_session) BrokenPipeError); evaluate.
Defined.

(** ** A negative length *)

(** X23. The length of a response is read as a signed integer and handed
    to [read] as it is: when it is negative, [_send_msg] takes everything
    the peer sends up to the end of file as the payload, and waits as long
    as the peer does not close. *)
Theorem negative_length_reads_to_eof type_ msg body s h st n data evs :
  struct.in_range type_ = true ->
  utf8.encode msg = inr body ->
  Z.of_nat (length body) + 10 <= struct.INT_MAX ->
  attached s h st -> drained st ->
  asyncio.incoming st = asyncio.feed_data (struct.le32 n ++ data) :: evs ->
  -2147483648 <= n < 0 ->
  (forall more rest,
     asyncio.until_eof evs = Some (more, rest) ->
     exists s', _send_msg type_ msg s = parse (data ++ more) s')
  /\ (asyncio.until_eof evs = None -> fst (_send_msg type_ msg s) = Blocked).
Proof.
  intros Ht Hb Hl Ha Hd Hi Hn.
  rewrite (_send_msg_attached type_ msg body s h st Ht Hb Hl Ha).
  destruct Ha as (Hrd & _ & Hs & Hc).
  erewrite (receive_waits _ h (wrote _ st)); cycle 1.
  - exact Hrd.
  - eapply stream_of_with_stream. rewrite stream_of_drawn. exact Hs.
  - exact Hd.
  - exact Hc.
  - simpl asyncio.incoming. rewrite Hi.
    change (asyncio.wait_for_data
              (asyncio.feed_data (struct.le32 n ++ data) :: evs))
      with (Some (struct.le32 n ++ data, false, evs)).
    cbv iota beta.
    change (take 4 (struct.le32 n ++ data)) with (struct.le32 n).
    change (drop 4 (struct.le32 n ++ data)) with data.
    rewrite unpack_pack_i by (apply in_range_spec; lia).
    rewrite (bind_return _ _ _ _ _ (of_result_inr _ _)).
    unfold asyncio.read. split.
    + intros more rest Hu. erewrite bind_return; [eexists; reflexivity|].
      eapply lift_on_stream.
      * eapply stream_of_with_stream, stream_of_with_stream.
        rewrite stream_of_drawn. exact Hs.
      * rewrite read_stream_up by exact Hc. unfold asyncio.read_buffer.
        replace (n =? 0) with false by lia. replace (n <? 0) with true by lia.
        simpl. rewrite Hu. reflexivity.
    + intros Hu. erewrite bind_blocked; [reflexivity|].
      eapply lift_on_stream.
      * eapply stream_of_with_stream, stream_of_with_stream.
        rewrite stream_of_drawn. exact Hs.
      * rewrite read_stream_up by exact Hc. unfold asyncio.read_buffer.
        replace (n =? 0) with false by lia. replace (n <? 0) with true by lia.
        simpl. rewrite Hu. reflexivity.
Qed.

(** X23 on [negative_length], and on the same session without the end of
    file. *)
Lemma negative_length_witness :
  (exists s',
     _send_msg MessageType.COMMAND (literal "list") negative_length
     = parse ((struct.le32 0 ++ struct.le32 7)
              ++ list_byte_of_string "hi" ++ [x00; x00]) s')
  /\ fst (_send_msg MessageType.COMMAND (literal "list")
            (connected
               [asyncio.feed_data
                  (struct.le32 (-1) ++ struct.le32 0 ++ struct.le32 7)]
               [5]))
     = Blocked.
Proof.
  split.
  - apply (proj1 (negative_length_reads_to_eof
                    MessageType.COMMAND (literal "list")
                    (list_byte_of_string "list") negative_length 0%nat
                    (the_stream negative_length) (-1)
                    (struct.le32 0 ++ struct.le32 7)
                    [asyncio.feed_data (list_byte_of_string "hi" ++ [x00; x00]);
                     asyncio.feed_eof]
                    ltac:(evaluate) ltac:(evaluate) ltac:(evaluate)
                    ltac:(evaluate) ltac:(evaluate) ltac:(evaluate)
                    ltac:(lia))
             (list_byte_of_string "hi" ++ [x00; x00]) []).
    reflexivity.
  - apply (proj2 (negative_length_reads_to_eof
                    MessageType.COMMAND (literal "list")
                    (list_byte_of_string "list")
                    (connected
                       [asyncio.feed_data
                          (struct.le32 (-1) ++ struct.le32 0 ++ struct.le32 7)]
                       [5])
                    0%nat
                    (asyncio.fresh
                       [asyncio.feed_data
                          (struct.le32 (-1) ++ struct.le32 0 ++ struct.le32 7)])
                    (-1) (struct.le32 0 ++ struct.le32 7) []
                    ltac:(evaluate) ltac:(evaluate) ltac:(evaluate)
                    ltac:(evaluate) ltac:(evaluate) ltac:(evaluate)
                    ltac:(lia))).
    reflexivity.
Defined.
